(** * National parks scraper (proj2_nps.py): cache, key builder, extraction

    A shallow embedding of the Python module [proj2_nps.py] and the
    properties of its response cache, its cache-key builder and its
    HTML / JSON extraction functions.

    Modelling conventions.
    - A Python [str] is a Rocq [string]; a character stands for a code
      point below 256, so that [String.compare] is Python's [<] on [str].
    - A Python [dict] is an association list in insertion order whose keys
      are pairwise distinct; [dict_get] and [dict_set] are [d[k]] and
      [d[k] = v].
    - Effects (the cache file, the network, standard output) are threaded
      through a [world]; an exception is an outcome [Raise], and the
      effects performed before it was raised stay in the world. *)

From Stdlib Require Import String Ascii List ZArith Bool Lia.
From Stdlib Require Import Permutation Sorted DecimalString.
From Stdlib Require DecimalPos.
Import ListNotations.

Set Warnings "-register-all".

Local Open Scope list_scope.
Local Open Scope string_scope.

(** ** Sorting *)

(** A stable sort by a comparison [le], by insertion from the right. *)
Section InsertionSort.
Context {A : Type} (le : A -> A -> bool).

Fixpoint insert (x : A) (l : list A) : list A :=
  match l with
  | [] => [x]
  | y :: rest => if le x y then x :: l else y :: insert x rest
  end.

Fixpoint isort (l : list A) : list A :=
  match l with
  | [] => []
  | x :: rest => insert x (isort rest)
  end.

End InsertionSort.

(** ** Python strings *)

Module PyStr.

(** [sep.join(l)] *)
Fixpoint join (sep : string) (l : list string) : string :=
  match l with
  | [] => ""
  | [x] => x
  | x :: rest => x ++ sep ++ join sep rest
  end.

(** [str(n)] for an [int]. *)
Definition of_int (n : Z) : string := NilZero.string_of_int (Z.to_int n).

(** [list.sort()] on a list of [str]: the elements in the order of [<],
    equal elements in their original order. *)
Definition sort (l : list string) : list string := isort String.leb l.

(** [c.isspace()] for a code point below 256. *)
Definition isspace (c : ascii) : bool :=
  let n := nat_of_ascii c in
  (((9 <=? n) && (n <=? 13)) || ((28 <=? n) && (n <=? 32))
   || (n =? 133) || (n =? 160))%nat.

Fixpoint lstrip (s : string) : string :=
  match s with
  | String c rest => if isspace c then lstrip rest else s
  | EmptyString => EmptyString
  end.

(** [rstrip] keeps a character when it is not a space or when something
    is kept to its right. *)
Fixpoint rstrip (s : string) : string :=
  match s with
  | EmptyString => EmptyString
  | String c rest =>
      match rstrip rest with
      | EmptyString => if isspace c then EmptyString else String c EmptyString
      | kept => String c kept
      end
  end.

(** [s.strip()] *)
Definition strip (s : string) : string := rstrip (lstrip s).

(** [c.lower()] for a code point below 256: the ASCII capitals and the
    Latin-1 capitals (U+00C0..U+00DE without the multiplication sign). *)
Definition lower_char (c : ascii) : ascii :=
  let n := nat_of_ascii c in
  if (((65 <=? n) && (n <=? 90))
      || ((192 <=? n) && (n <=? 222) && negb (n =? 215)))%nat
  then ascii_of_nat (n + 32) else c.

(** [s.lower()] *)
Fixpoint lower (s : string) : string :=
  match s with
  | EmptyString => EmptyString
  | String c rest => String (lower_char c) (lower rest)
  end.

Fixpoint all_space (s : string) : bool :=
  match s with
  | EmptyString => true
  | String c rest => isspace c && all_space rest
  end.

(** First and last character of a string, when it has one. *)
Definition first_char (s : string) : option ascii :=
  match s with
  | EmptyString => None
  | String c _ => Some c
  end.

Fixpoint last_char (s : string) : option ascii :=
  match s with
  | EmptyString => None
  | String c EmptyString => Some c
  | String _ rest => last_char rest
  end.

(** A string is trimmed when neither end is a space. *)
Definition trimmed (s : string) : Prop :=
  (forall c, first_char s = Some c -> isspace c = false) /\
  (forall c, last_char s = Some c -> isspace c = false).

(** [t] is [s] without the white space around it. *)
Definition trim_of (s t : string) : Prop :=
  exists l r,
    s = l ++ t ++ r /\ all_space l = true /\ all_space r = true /\ trimmed t.

End PyStr.

(** ** Python dictionaries *)

Module PyDict.

Section Dict.
Context {V : Type}.

Definition dict := list (string * V).

(** [d[k]], [None] standing for [KeyError] *)
Fixpoint dict_get (d : dict) (k : string) : option V :=
  match d with
  | [] => None
  | (k', v) :: rest => if String.eqb k k' then Some v else dict_get rest k
  end.

(** [k in d.keys()] *)
Definition dict_mem (d : dict) (k : string) : bool :=
  match dict_get d k with
  | Some _ => true
  | None => false
  end.

(** [d[k] = v]: an existing key keeps its position, a new key goes last. *)
Fixpoint dict_set (d : dict) (k : string) (v : V) : dict :=
  match d with
  | [] => [(k, v)]
  | (k', v') :: rest =>
      if String.eqb k k' then (k, v) :: rest else (k', v') :: dict_set rest k v
  end.

Definition dict_keys (d : dict) : list string := map fst d.

End Dict.

Arguments dict V : clear implicits.

End PyDict.

Import PyDict.

(** ** The cache-key builder *)

(** The values of a parameter mapping: [str] or [int]. *)
Inductive param_value :=
| PStr (s : string)
| PInt (n : Z).

(** [f'{v}'] *)
Definition format_param (v : param_value) : string :=
  match v with
  | PStr s => s
  | PInt n => PyStr.of_int n
  end.

(** [f'{k}={params[k]}'] for the key [k] and its value. *)
Definition param_string (kv : string * param_value) : string :=
  fst kv ++ "=" ++ format_param (snd kv).

(** [construct_unique_key(baseurl, params)]: the loop over
    [params.keys()] appends one string per key, in iteration order, then
    the strings are sorted and joined. *)
Definition construct_unique_key (baseurl : string) (params : dict param_value)
  : string :=
  let param_strings := map param_string params in
  let param_strings := PyStr.sort param_strings in
  baseurl ++ "?" ++ PyStr.join "&" param_strings.


(** ** JSON values *)

(** What [json.loads] and [response.json()] return.  A [float] is kept by
    its [repr]; an object is a [dict] with [str] keys. *)
Inductive json :=
| JNull
| JBool (b : bool)
| JInt (n : Z)
| JFloat (repr : string)
| JStr (s : string)
| JArr (items : list json)
| JObj (members : list (string * json)).

(** [{}] *)
Definition empty_dict : json := JObj [].

(** ** The world: cache file, network, standard output *)

(** The cache file as [open_cache] sees it: what
    [json.loads(open(CACHE_FILENAME).read())] does.  [Document j] is a
    file whose content parses to [j], which is also what [json.dumps]
    of [j] leaves on disk. *)
Inductive cache_file_state :=
| NoFile
| Unparseable
| Document (j : json).

(** What [requests.get] hands back: the body as [response.text], and what
    [response.json()] makes of it ([None]: it raises). *)
Record response := {
  text : string;
  json_body : option json
}.

Record world := {
  cache_file : cache_file_state;
  (** the reply to a request, given the requests made before it;
      [None]: [requests.get] raises *)
  internet : list string -> string -> option response;
  (** the calls of [requests.get] so far, oldest first *)
  requested : list string;
  (** the lines printed so far, oldest first *)
  stdout : list string;
  (** the documents [save_cache] wrote so far, oldest first *)
  written : list json
}.

Inductive exn :=
| AttributeError
| TypeError
| KeyError
| RequestException
| JSONDecodeError.

Inductive outcome (A : Type) :=
| Ok (a : A)
| Raise (e : exn).

Arguments Ok {A} a.
Arguments Raise {A} e.

(** A computation reads and changes the world and returns or raises. *)
Definition M (A : Type) : Type := world -> outcome A * world.

Definition ret {A} (a : A) : M A := fun w => (Ok a, w).

Definition raise {A} (e : exn) : M A := fun w => (Raise e, w).

Definition bind {A B} (m : M A) (k : A -> M B) : M B :=
  fun w =>
    match m w with
    | (Ok a, w') => k a w'
    | (Raise e, w') => (Raise e, w')
    end.

Declare Scope py_scope.
Delimit Scope py_scope with py.
Notation "x <- m ;; k" := (bind m (fun x => k))
  (at level 61, m at next level, right associativity) : py_scope.
Notation "m ;;; k" := (bind m (fun _ => k))
  (at level 61, right associativity) : py_scope.
Local Open Scope py_scope.

(** The three effects on the world. *)
Definition add_line (line : string) (w : world) : world :=
  {| cache_file := cache_file w; internet := internet w;
     requested := requested w; stdout := (stdout w ++ [line])%list;
     written := written w |}.

Definition add_request (url : string) (w : world) : world :=
  {| cache_file := cache_file w; internet := internet w;
     requested := (requested w ++ [url])%list; stdout := stdout w;
     written := written w |}.

Definition put_file (document : json) (w : world) : world :=
  {| cache_file := Document document; internet := internet w;
     requested := requested w; stdout := stdout w;
     written := (written w ++ [document])%list |}.

(** [print(line)] *)
Definition print (line : string) : M unit :=
  fun w => (Ok tt, add_line line w).

(** [requests.get(url)] *)
Definition requests_get (url : string) : M response :=
  fun w =>
    match internet w (requested w) url with
    | Some r => (Ok r, add_request url w)
    | None => (Raise RequestException, add_request url w)
    end.

(** [response.json()] *)
Definition response_json (r : response) : M json :=
  match json_body r with
  | Some j => ret j
  | None => raise JSONDecodeError
  end.

(** [x.keys()] is there for a [dict] only. *)
Definition keys_view (x : json) : M (dict json) :=
  match x with
  | JObj d => ret d
  | _ => raise AttributeError
  end.

(** [d[k]] *)
Definition getitem {V} (d : dict V) (k : string) : M V :=
  match dict_get d k with
  | Some v => ret v
  | None => raise KeyError
  end.

(** ** The response cache *)

(** [open_cache()]: any failure of the [try] block gives [{}]. *)
Definition open_cache : M json :=
  fun w =>
    match cache_file w with
    | Document cache_dict => (Ok cache_dict, w)
    | NoFile | Unparseable => (Ok empty_dict, w)
    end.

(** [save_cache(cache_dict)] *)
Definition save_cache (cache_dict : json) : M unit :=
  fun w => (Ok tt, put_file cache_dict w).

(** [make_request_with_cache(url)] *)
Definition make_request_with_cache (url : string) : M json :=
  CACHE_DICT <- open_cache ;;
  d <- keys_view CACHE_DICT ;;
  if dict_mem d url then
    print "Using Cache" ;;;
    getitem d url
  else
    print "Fetching" ;;;
    response <- requests_get url ;;
    let d := dict_set d url (JStr (text response)) in
    save_cache (JObj d) ;;;
    getitem d url.

(** [map_make_request_with_cache(url)] *)
Definition map_make_request_with_cache (url : string) : M json :=
  CACHE_DICT <- open_cache ;;
  d <- keys_view CACHE_DICT ;;
  if dict_mem d url then
    print "Using Cache" ;;;
    getitem d url
  else
    print "Fetching" ;;;
    response <- requests_get url ;;
    value <- response_json response ;;
    let d := dict_set d url value in
    save_cache (JObj d) ;;;
    getitem d url.

(** The two call sites under the names of the specification:
    [fetch_or_get(key, fetcher, kind)] with the network as the fetcher. *)
Inductive value_kind := Text | Json.

Definition fetch_or_get (kind : value_kind) (key : string) : M json :=
  match kind with
  | Text => make_request_with_cache key
  | Json => map_make_request_with_cache key
  end.

(** The store a call would load from the world, when it is a [dict]. *)
Definition loaded_store (w : world) : option (dict json) :=
  match fst (open_cache w) with
  | Ok (JObj d) => Some d
  | _ => None
  end.

(** ** Parsed HTML, as BeautifulSoup presents it *)

(** A page element: a text node ([NavigableString]) or a tag with its
    attributes and children.  An attribute value is kept as written;
    the [class] attribute is split on white space where it is matched. *)
Inductive node :=
| NText (s : string)
| NTag (tag_name : string) (attrs : list (string * string)) (children : list node).

Module Soup.

(** [tag.descendants]: the nodes below a tag, in document order. *)
Fixpoint descendants (n : node) : list node :=
  match n with
  | NText _ => []
  | NTag _ _ children => flat_map (fun c => c :: descendants c) children
  end.

(** The white-space separated tokens of an attribute value. *)
Fixpoint tokens_from (cur : string) (s : string) : list string :=
  match s with
  | EmptyString => match cur with EmptyString => [] | _ => [cur] end
  | String c rest =>
      if PyStr.isspace c then
        match cur with
        | EmptyString => tokens_from EmptyString rest
        | _ => cur :: tokens_from EmptyString rest
        end
      else tokens_from (cur ++ String c EmptyString) rest
  end.

Definition tokens (s : string) : list string := tokens_from EmptyString s.

(** Does the value of a tag's attribute match the string searched for?
    [class] is a list of tokens: one of them matches, or all of them
    joined by a space do.  A missing attribute matches the empty string
    only. *)
Definition value_matches (attr : string) (value : option string)
  (match_against : string) : bool :=
  match value with
  | None => String.eqb match_against ""
  | Some v =>
      if String.eqb attr "class" then
        existsb (fun item => String.eqb item match_against) (tokens v)
        || String.eqb (PyStr.join " " (tokens v)) match_against
      else String.eqb v match_against
  end.

(** Is this node a tag of the given name whose attributes match? *)
Definition search_tag (name : string) (wanted : list (string * string))
  (n : node) : bool :=
  match n with
  | NText _ => false
  | NTag tag_name attrs _ =>
      String.eqb tag_name name
      && forallb (fun w => value_matches (fst w) (dict_get attrs (fst w)) (snd w))
           wanted
  end.

(** [tag.find(name, attr=value, ...)]: the first match below [tag]. *)
Definition find (name : string) (wanted : list (string * string)) (n : node)
  : option node :=
  List.find (search_tag name wanted) (descendants n).

(** [tag.find_all(name)] *)
Definition find_all (name : string) (n : node) : list node :=
  filter (search_tag name []) (descendants n).

Definition own_text (n : node) : string :=
  match n with
  | NText s => s
  | NTag _ _ _ => ""
  end.

(** [tag.text]: the text nodes below the tag, concatenated. *)
Definition get_text (n : node) : string :=
  String.concat "" (map own_text (descendants n)).

(** [tag.string]: the text of a tag whose only child is a text node, or
    a tag of which this holds in turn. *)
Fixpoint node_string (n : node) : option string :=
  match n with
  | NText s => Some s
  | NTag _ _ [child] => node_string child
  | NTag _ _ _ => None
  end.

(** [tag[attr]] *)
Definition attr_value (n : node) (attr : string) : option string :=
  match n with
  | NText _ => None
  | NTag _ attrs _ => dict_get attrs attr
  end.

End Soup.

(** Attribute access on a value that may be [None]. *)
Definition dot {A} (x : option A) : M A :=
  match x with
  | Some a => ret a
  | None => raise AttributeError
  end.

(** [tag[attr]] on a value that may be [None]. *)
Definition subscript_tag (x : option node) (attr : string) : M string :=
  match x with
  | None => raise TypeError
  | Some tag =>
      match Soup.attr_value tag attr with
      | Some v => ret v
      | None => raise KeyError
      end
  end.

Definition BASE_URL : string := "https://www.nps.gov".
Definition MAP_URL : string := "http://www.mapquestapi.com/search/v2/radius".

(** [class NationalSite] *)
Record NationalSite := {
  category : string;
  name : string;
  address : string;
  zipcode : string;
  phone : string
}.

(** [NationalSite.info] *)
Definition info (self : NationalSite) : string :=
  name self ++ " (" ++ category self ++ "): " ++ address self ++ " "
  ++ zipcode self.

Section Scraper.

(** [BeautifulSoup(markup, 'html.parser')] on a [str]: the tree of a
    page that the parser accepts.  Markup that the parser refuses, with
    an exception of its own, has no tree and is not modelled; what is
    proved of a page is proved of its tree. *)
Variable html_parser : string -> node.

(** [BeautifulSoup(url_text, 'html.parser')] on a cached value; only a
    [str] is markup. *)
Definition BeautifulSoup (url_text : json) : M node :=
  match url_text with
  | JStr markup => ret (html_parser markup)
  | _ => raise TypeError
  end.

(** The body of the loop of [build_state_url_dict]. *)
Definition state_entry (state_url_dict : dict string) (state_info : node)
  : M (dict string) :=
  let state_tag := Soup.find "a" [] state_info in
  state_detail_path <- subscript_tag state_tag "href" ;;
  let state_detail_url := BASE_URL ++ state_detail_path in
  state_tag <- dot state_tag ;;
  state_name <- dot (Soup.node_string state_tag) ;;
  ret (dict_set state_url_dict (PyStr.lower state_name) state_detail_url).

Fixpoint state_loop (state_list : list node) (state_url_dict : dict string)
  : M (dict string) :=
  match state_list with
  | [] => ret state_url_dict
  | state_info :: rest =>
      state_url_dict <- state_entry state_url_dict state_info ;;
      state_loop rest state_url_dict
  end.

(** [build_state_url_dict()] *)
Definition build_state_url_dict : M (dict string) :=
  let main_url := "https://www.nps.gov/index.htm" in
  url_text <- make_request_with_cache main_url ;;
  soup <- BeautifulSoup url_text ;;
  let state_list_parent :=
    Soup.find "div"
      [("class", "SearchBar-keywordSearch input-group input-group-lg")] soup in
  state_list_parent <- dot state_list_parent ;;
  let state_list := Soup.find_all "li" state_list_parent in
  state_loop state_list [].

(** [get_site_instance(site_url)] *)
Definition get_site_instance (site_url : string) : M NationalSite :=
  url_text <- make_request_with_cache site_url ;;
  soup <- BeautifulSoup url_text ;;
  let site_head_parent :=
    Soup.find "div" [("class", "Hero-titleContainer clearfix")] soup in
  site_head_parent <- dot site_head_parent ;;
  site_name_tag <- dot (Soup.find "a" [] site_head_parent) ;;
  let site_name := Soup.get_text site_name_tag in
  designation <-
    dot (Soup.find "div" [("class", "Hero-designationContainer")]
           site_head_parent) ;;
  designation <- dot (Soup.find "span" [("class", "Hero-designation")] designation) ;;
  let site_category := Soup.get_text designation in
  let site_address_parent := Soup.find "p" [("class", "adr")] soup in
  address_zipcode <-
    match site_address_parent with
    | Some _ =>
        locality <- dot (Soup.find "span" [("itemprop", "addressLocality")] soup) ;;
        let site_locality := Soup.get_text locality in
        region <- dot (Soup.find "span" [("itemprop", "addressRegion")] soup) ;;
        let site_region := Soup.get_text region in
        postal <- dot (Soup.find "span" [("itemprop", "postalCode")] soup) ;;
        let site_zipcode := PyStr.strip (Soup.get_text postal) in
        let site_address := site_locality ++ ", " ++ site_region in
        ret (site_address, site_zipcode)
    | None => ret ("No address", "No zipcode")
    end ;;
  telephone <- dot (Soup.find "span" [("itemprop", "telephone")] soup) ;;
  let site_phone := PyStr.strip (Soup.get_text telephone) in
  ret {| category := site_category; name := site_name;
         address := fst address_zipcode; zipcode := snd address_zipcode;
         phone := site_phone |}.

End Scraper.

(** ** Places lookup *)

Section Places.

(** [secrets.CONSUMER_KEY] *)
Variable consumer_key : string.

(** [repr(v)] of a value that is not a [str]; an f-string field shows
    a [str] as it is and any other value by its [repr]. *)
Variable py_repr : json -> string.

Definition py_format (v : json) : string :=
  match v with
  | JStr s => s
  | _ => py_repr v
  end.

(** [get_nearby_places(site_object)] *)
Definition get_nearby_places (site_object : NationalSite) : M json :=
  let origin := zipcode site_object in
  let params :=
    [("origin", PStr origin); ("radius", PInt 10); ("maxMatches", PInt 10);
     ("ambiguities", PStr "ignore"); ("outFormat", PStr "json");
     ("key", PStr consumer_key)] in
  let map_api_key := construct_unique_key MAP_URL params in
  map_make_request_with_cache map_api_key.

(** [x[k]] for a [str] index [k]: a [dict] looks the key up, any other
    value raises [TypeError]. *)
Definition subscript (x : json) (k : string) : M json :=
  match x with
  | JObj d => getitem d k
  | _ => raise TypeError
  end.

(** [len(x)] *)
Definition py_len (x : json) : M nat :=
  match x with
  | JStr s => ret (String.length s)
  | JArr items => ret (List.length items)
  | JObj members => ret (List.length members)
  | _ => raise TypeError
  end.

(** What [for result in x] goes through: the items of a list, the keys
    of a [dict], the characters of a [str]. *)
Definition py_iter (x : json) : M (list json) :=
  match x with
  | JArr items => ret items
  | JObj members => ret (map (fun kv => JStr (fst kv)) members)
  | JStr s => ret (map (fun c => JStr (String c EmptyString)) (list_ascii_of_string s))
  | _ => raise TypeError
  end.

(** [if len(place_field) == 0: place_field = placeholder] *)
Definition or_placeholder (place_field : json) (placeholder : string) : M json :=
  n <- py_len place_field ;;
  ret (if Nat.eqb n 0 then JStr placeholder else place_field).

(** The body of the loop of [print_nearby_places]. *)
Definition print_place (result : json) : M unit :=
  place_name <- subscript result "name" ;;
  fields <- subscript result "fields" ;;
  place_category <- subscript fields "group_sic_code_name" ;;
  fields <- subscript result "fields" ;;
  place_address <- subscript fields "address" ;;
  fields <- subscript result "fields" ;;
  place_city <- subscript fields "city" ;;
  place_category <- or_placeholder place_category "no category" ;;
  place_address <- or_placeholder place_address "no address" ;;
  place_city <- or_placeholder place_city "no city" ;;
  print ("- " ++ py_format place_name ++ " (" ++ py_format place_category
         ++ "): " ++ py_format place_address ++ ", " ++ py_format place_city).

Fixpoint print_places (results_list : list json) : M unit :=
  match results_list with
  | [] => ret tt
  | result :: rest => print_place result ;;; print_places rest
  end.

(** [print_nearby_places(map_api_dict)] *)
Definition print_nearby_places (map_api_dict : json) : M unit :=
  results_list <- subscript map_api_dict "searchResults" ;;
  results_list <- py_iter results_list ;;
  print_places results_list.

End Places.

(** ** The specification's reading of the operations *)

(** One entry of a places result: its name and the three fields, all
    strings, any of which may be empty. *)
Record place := {
  place_name : string;
  place_category : string;
  place_address : string;
  place_city : string
}.

(** The typed view of a JSON entry
    [{"name": n, "fields": {"group_sic_code_name": c, "address": a, "city": y}}]. *)
Definition place_of (result : json) : option place :=
  match result with
  | JObj entry =>
      match dict_get entry "name", dict_get entry "fields" with
      | Some (JStr n), Some (JObj fields) =>
          match dict_get fields "group_sic_code_name",
                dict_get fields "address", dict_get fields "city" with
          | Some (JStr c), Some (JStr a), Some (JStr y) =>
              Some {| place_name := n; place_category := c;
                      place_address := a; place_city := y |}
          | _, _, _ => None
          end
      | _, _ => None
      end
  | _ => None
  end.

(** The typed view of a places result. *)
Fixpoint places_of (results : list json) : option (list place) :=
  match results with
  | [] => Some []
  | result :: rest =>
      match place_of result, places_of rest with
      | Some p, Some ps => Some (p :: ps)
      | _, _ => None
      end
  end.

Definition or_literal (field placeholder : string) : string :=
  match field with
  | EmptyString => placeholder
  | _ => field
  end.

(** The line the specification gives for an entry:
    ["- {name} ({category}): {address}, {city}"] with the placeholders
    for empty fields. *)
Definition render_line (p : place) : string :=
  "- " ++ place_name p
  ++ " (" ++ or_literal (place_category p) "no category"
  ++ "): " ++ or_literal (place_address p) "no address"
  ++ ", " ++ or_literal (place_city p) "no city".

Definition render_places (ps : list place) : list string := map render_line ps.

(** The key the specification describes: the pairs sorted by key name,
    then written [key=value] and joined. *)
Definition key_leb (kv kv' : string * param_value) : bool :=
  String.leb (fst kv) (fst kv').

Definition sort_by_key (l : list (string * param_value))
  : list (string * param_value) :=
  isort key_leb l.

Definition build_key_by_key_name (base_url : string) (params : dict param_value)
  : string :=
  base_url ++ "?" ++ PyStr.join "&" (map param_string (sort_by_key params)).

(** A character that sorts after ["="]. *)
Definition after_equals (c : ascii) : bool := (61 <? N_of_ascii c)%N.

Fixpoint all_after_equals (s : string) : bool :=
  match s with
  | EmptyString => true
  | String c rest => after_equals c && all_after_equals rest
  end.

(** The URL resolution the specification describes: the base origin is
    prefixed to a relative path, an absolute URL stays. *)
Definition is_absolute (href : string) : bool :=
  String.prefix "http://" href || String.prefix "https://" href.

Definition resolve_url (href : string) : string :=
  if is_absolute href then href else BASE_URL ++ href.

(** A state entry of the navigation widget: a list item whose first link
    has the address [href] and the text [state]. *)
Definition entry_of (state_info : node) : option (string * string) :=
  match Soup.find "a" [] state_info with
  | Some state_tag =>
      match Soup.attr_value state_tag "href", Soup.node_string state_tag with
      | Some href, Some state => Some (state, href)
      | _, _ => None
      end
  | None => None
  end.

Fixpoint entries_of (state_list : list node) : option (list (string * string)) :=
  match state_list with
  | [] => Some []
  | state_info :: rest =>
      match entry_of state_info, entries_of rest with
      | Some e, Some es => Some (e :: es)
      | _, _ => None
      end
  end.

(** ** Observations on the world *)

(** The value the store on disk holds for a key. *)
Definition stored (w : world) (k : string) : option json :=
  match loaded_store w with
  | Some d => dict_get d k
  | None => None
  end.

(** A run of the program as far as the cache goes: a sequence of calls,
    each with its kind and key, whatever each call returns or raises. *)
Fixpoint run_calls (calls : list (value_kind * string)) (w : world) : world :=
  match calls with
  | [] => w
  | (kind, key) :: rest => run_calls rest (snd (fetch_or_get kind key w))
  end.

(** What a call does, by cases on the store it loads. *)
Inductive call_case (kind : value_kind) (key : string) (w : world)
  : outcome json * world -> Prop :=
| case_not_a_dict :
    loaded_store w = None ->
    call_case kind key w (Raise AttributeError, w)
| case_hit d v :
    loaded_store w = Some d -> dict_get d key = Some v ->
    call_case kind key w (Ok v, add_line "Using Cache" w)
| case_network_down d :
    loaded_store w = Some d -> dict_get d key = None ->
    internet w (requested w) key = None ->
    call_case kind key w
      (Raise RequestException, add_request key (add_line "Fetching" w))
| case_not_json d r :
    loaded_store w = Some d -> dict_get d key = None ->
    internet w (requested w) key = Some r ->
    kind = Json -> json_body r = None ->
    call_case kind key w
      (Raise JSONDecodeError, add_request key (add_line "Fetching" w))
| case_miss d r value :
    loaded_store w = Some d -> dict_get d key = None ->
    internet w (requested w) key = Some r ->
    match kind with
    | Text => value = JStr (text r)
    | Json => json_body r = Some value
    end ->
    call_case kind key w
      (Ok value,
       put_file (JObj (dict_set d key value))
         (add_request key (add_line "Fetching" w))).

(** The world after some lines were printed. *)
Definition add_lines (lines : list string) (w : world) : world :=
  fold_left (fun w line => add_line line w) lines w.

(** ** What a page holds *)

(** The header block of a detail page: the text of its link and of its
    designation. *)
Definition header_of (soup : node) : option (string * string) :=
  match Soup.find "div" [("class", "Hero-titleContainer clearfix")] soup with
  | Some head =>
      match Soup.find "a" [] head,
            Soup.find "div" [("class", "Hero-designationContainer")] head with
      | Some link, Some container =>
          match Soup.find "span" [("class", "Hero-designation")] container with
          | Some designation =>
              Some (Soup.get_text link, Soup.get_text designation)
          | None => None
          end
      | _, _ => None
      end
  | None => None
  end.

(** The text of the telephone element. *)
Definition telephone_of (soup : node) : option string :=
  option_map Soup.get_text (Soup.find "span" [("itemprop", "telephone")] soup).

(** Is there a structured postal-address block? *)
Definition has_address_block (soup : node) : bool :=
  match Soup.find "p" [("class", "adr")] soup with
  | Some _ => true
  | None => false
  end.

(** The texts of the locality, region and postal code elements. *)
Definition address_parts_of (soup : node) : option (string * string * string) :=
  match Soup.find "span" [("itemprop", "addressLocality")] soup,
        Soup.find "span" [("itemprop", "addressRegion")] soup,
        Soup.find "span" [("itemprop", "postalCode")] soup with
  | Some locality, Some region, Some postal =>
      Some (Soup.get_text locality, Soup.get_text region, Soup.get_text postal)
  | _, _, _ => None
  end.

(** Address and zip code as [get_site_instance] sets them: from the
    elements when there is an address block, the two sentinels when
    there is none. *)
Definition address_zipcode_of (soup : node) : option (string * string) :=
  if has_address_block soup then
    match address_parts_of soup with
    | Some (locality, region, postal) =>
        Some (locality ++ ", " ++ region, PyStr.strip postal)
    | None => None
    end
  else Some ("No address", "No zipcode").

(** The navigation widget of the homepage. *)
Definition widget_of (soup : node) : option node :=
  Soup.find "div"
    [("class", "SearchBar-keywordSearch input-group input-group-lg")] soup.

(** What one state entry adds to the index. *)
Definition add_entry (index : dict string) (e : string * string) : dict string :=
  dict_set index (PyStr.lower (fst e)) (BASE_URL ++ snd e).

(** ** Worlds and pages used as examples *)

Module Fixtures.

(** A network that answers every request with a page naming the URL. *)
Definition echo_net : list string -> string -> option response :=
  fun _ url => Some {| text := "<html>" ++ url ++ "</html>";
                       json_body := Some (JObj [("searchResults", JArr [])]) |}.

(** A network that is down. *)
Definition dead_net : list string -> string -> option response :=
  fun _ _ => None.

Definition fresh (net : list string -> string -> option response) : world :=
  {| cache_file := NoFile; internet := net; requested := []; stdout := [];
     written := [] |}.

Definition with_file (f : cache_file_state)
  (net : list string -> string -> option response) : world :=
  {| cache_file := f; internet := net; requested := []; stdout := [];
     written := [] |}.

(** A parser that knows one page. *)
Definition parse_as (page : node) : string -> node := fun _ => page.

(** A world whose cache file holds the text of one page. *)
Definition cached (url : string) : world :=
  with_file (Document (JObj [(url, JStr "<!doctype html>")])) dead_net.

(** A detail page: header, an address block or none, telephone. *)
Definition address_block (parts : option (string * string * string)) : list node :=
  match parts with
  | Some (locality, region, postal) =>
      [NTag "p" [("class", "adr")]
         [NTag "span" [("itemprop", "addressLocality")] [NText locality];
          NText ", ";
          NTag "span" [("itemprop", "addressRegion")] [NText region];
          NTag "span" [("itemprop", "postalCode")] [NText postal]]]
  | None => []
  end.

Definition detail_page (parts : option (string * string * string))
  (telephone : string) : node :=
  NTag "[document]" []
    [NTag "div" [("class", "Hero-titleContainer clearfix")]
       [NTag "a" [("href", "/isro/"); ("class", "Hero-title")] [NText "Isle Royale"];
        NTag "div" [("class", "Hero-designationContainer")]
          [NTag "span" [("class", "Hero-designation")] [NText "National Park"]]];
     NTag "div" [("class", "vcard")]
       (address_block parts
        ++ [NTag "span" [("itemprop", "telephone")] [NText telephone]])%list].

(** A homepage whose navigation widget lists the given states. *)
Definition state_item (e : string * string) : node :=
  NTag "li" [] [NTag "a" [("href", snd e)] [NText (fst e)]].

Definition homepage (entries : list (string * string)) : node :=
  NTag "[document]" []
    [NTag "div"
       [("class", "SearchBar-keywordSearch input-group input-group-lg")]
       [NTag "ul" [("class", "dropdown-menu")] (map state_item entries)]].

Definition home_url : string := "https://www.nps.gov/index.htm".
Definition isro_url : string := "https://www.nps.gov/isro/index.htm".

(** A places result as the API sends it. *)
Definition place_entry (n c a y : string) : json :=
  JObj [("name", JStr n);
        ("fields", JObj [("address", JStr a); ("city", JStr y);
                         ("group_sic_code_name", JStr c); ("lat", JFloat "47.12")])].

Definition places_result : json :=
  JObj [("resultsCount", JInt 2);
        ("searchResults",
         JArr [place_entry "Keweenaw Coffee" "Coffee Shops" "326 Shelden Ave" "Houghton";
               place_entry "Portage Lake" "" "" ""])].

(** [repr] of the values the examples format: none of them is reached. *)
Definition no_repr : json -> string := fun _ => "".

End Fixtures.

(** ** The sites of a state *)

(** Is this node a tag whose attributes match, whatever its name? *)
Definition search_any_tag (wanted : list (string * string)) (n : node) : bool :=
  match n with
  | NText _ => false
  | NTag _ attrs _ =>
      forallb
        (fun w => Soup.value_matches (fst w) (dict_get attrs (fst w)) (snd w))
        wanted
  end.

(** [tag.find(attr=value, ...)] without a tag name. *)
Definition find_any (wanted : list (string * string)) (n : node) : option node :=
  List.find (search_any_tag wanted) (Soup.descendants n).

Section Listing.

Variable html_parser : string -> node.

(** The loop of [get_sites_for_state]. *)
Fixpoint parks_loop (park_info : list node) (park_instance_list : list NationalSite)
  : M (list NationalSite) :=
  match park_info with
  | [] => ret park_instance_list
  | park :: rest =>
      park_ref <- subscript_tag (Soup.find "a" [] park) "href" ;;
      let park_url := BASE_URL ++ park_ref ++ "index.htm" in
      parkinstance <- get_site_instance html_parser park_url ;;
      parks_loop rest (park_instance_list ++ [parkinstance])%list
  end.

(** [get_sites_for_state(state_url)] *)
Definition get_sites_for_state (state_url : string) : M (list NationalSite) :=
  url_text <- make_request_with_cache state_url ;;
  soup <- BeautifulSoup html_parser url_text ;;
  let park_info_parent := find_any [("id", "list_parks")] soup in
  park_info_parent <- dot park_info_parent ;;
  let park_info := Soup.find_all "h3" park_info_parent in
  parks_loop park_info [].

End Listing.

(** The address of the page of a listed site, when its heading has a link
    with an [href]. *)
Definition park_url_of (park : node) : option string :=
  match Soup.find "a" [] park with
  | Some link =>
      match Soup.attr_value link "href" with
      | Some park_ref => Some (BASE_URL ++ park_ref ++ "index.htm")
      | None => None
      end
  | None => None
  end.

(** ** The interactive session *)

Module Main.

(** [c.isnumeric()] for a code point below 256: the decimal digits, the
    superscripts one, two and three, and the three vulgar fractions. *)
Definition isnumeric_char (c : ascii) : bool :=
  let n := nat_of_ascii c in
  (((48 <=? n) && (n <=? 57)) || (n =? 178) || (n =? 179) || (n =? 185)
   || ((188 <=? n) && (n <=? 190)))%nat.

(** [s.isnumeric()]: at least one character, all of them numeric. *)
Definition isnumeric (s : string) : bool :=
  match s with
  | EmptyString => false
  | _ => forallb isnumeric_char (list_ascii_of_string s)
  end.

Definition is_decimal (c : ascii) : bool :=
  let n := nat_of_ascii c in ((48 <=? n) && (n <=? 57))%nat.

(** The value of a string of decimal digits read from the left, [acc]
    being the value of the digits read so far; [None] at any other
    character. *)
Fixpoint digits_value (s : string) (acc : Z) : option Z :=
  match s with
  | EmptyString => Some acc
  | String c rest =>
      if is_decimal c
      then digits_value rest (10 * acc + Z.of_nat (nat_of_ascii c - 48))%Z
      else None
  end.

(** [int(num)] for a [str] that passed [isnumeric]: its value when all
    its characters are decimal digits, [None] ([ValueError]) otherwise. *)
Definition py_int (num : string) : option Z := digits_value num 0%Z.

(** [l[i]] for a list: a negative index counts from the end. *)
Definition list_index {A} (l : list A) (i : Z) : option A :=
  if (0 <=? i)%Z then nth_error l (Z.to_nat i)
  else if (- Z.of_nat (List.length l) <=? i)%Z
       then nth_error l (Z.to_nat (Z.of_nat (List.length l) + i))
       else None.

(** [s * n] *)
Fixpoint repeat_str (s : string) (n : nat) : string :=
  match n with
  | O => ""
  | S n' => s ++ repeat_str s n'
  end.

(** How a session stops: [exit()], the end of the input, an exception
    of the main block itself, or one raised by a function it calls. *)
Inductive stop :=
| SystemExit
| EOFError
| ValueError
| IndexError
| Uncaught (e : exn).

(** The prompt that is waiting for the next line. *)
Inductive prompt :=
| AskState
| AskNumber (state_nps_list : list NationalSite).

Definition state_question : string :=
  "Enter a state name (e.g. Michigan, michigan) or 'exit': ".

Definition number_question : string :=
  "Choose the number for detail search or 'exit' or 'back': ".

Definition newline : string := String (ascii_of_nat 10) EmptyString.

(** The loop [for park in state_nps_list: print(f"[{num}] {park.info()}")]. *)
Fixpoint print_listing (state_nps_list : list NationalSite) (num : Z) (w : world)
  : world :=
  match state_nps_list with
  | [] => w
  | park :: rest =>
      print_listing rest (num + 1)%Z
        (add_line ("[" ++ PyStr.of_int num ++ "] " ++ info park) w)
  end.

(** The lines of the listing, numbered from [num]. *)
Fixpoint listing_lines (state_nps_list : list NationalSite) (num : Z)
  : list string :=
  match state_nps_list with
  | [] => []
  | park :: rest =>
      ("[" ++ PyStr.of_int num ++ "] " ++ info park)
      :: listing_lines rest (num + 1)%Z
  end.

(** The line of the listing for the site at position [i], counted
    from 0. *)
Definition listing_line (i : nat) (park : NationalSite) : string :=
  "[" ++ PyStr.of_int (Z.of_nat (S i)) ++ "] " ++ info park.

(** The superscript two, a numeric character that is no decimal digit. *)
Definition superscript_two : string := String (ascii_of_nat 178) EmptyString.

Section Session.

Variable html_parser : string -> node.
Variable consumer_key : string.
Variable py_repr : json -> string.

(** [s.title()] *)
Variable py_title : string -> string.

(** [site_api_dict = get_nearby_places(site_chose)] and
    [print_nearby_places(site_api_dict)].  [Some s]: the session stops
    with [s]. *)
Definition show_places (site_chose : NationalSite) (w : world)
  : option stop * world :=
  match get_nearby_places consumer_key site_chose w with
  | (Raise e, w) => (Some (Uncaught e), w)
  | (Ok site_api_dict, w) =>
      match print_nearby_places py_repr site_api_dict w with
      | (Raise e, w) => (Some (Uncaught e), w)
      | (Ok _, w) => (None, w)
      end
  end.

(** The body of the inner loop once [num] is neither ['exit'] nor
    ['back']: look the chosen site up and print the places near it, or
    report the input as invalid. *)
Definition choose_number (state_nps_list : list NationalSite) (num : string)
  (w : world) : option stop * world :=
  if isnumeric num then
    match py_int num with
    | None => (Some ValueError, w)
    | Some n =>
        if ((1 <=? n) && (n <=? Z.of_nat (List.length state_nps_list)))%Z then
          match list_index state_nps_list (n - 1)%Z with
          | None => (Some IndexError, w)
          | Some site_chose => show_places site_chose w
          end
        else
          (None, add_line (repeat_str "-" 40) (add_line "[Error] Invalid Input" w))
    end
  else (None, add_line (repeat_str "-" 40) (add_line "[Error] Invalid Input" w)).

(** The two nested [while True] loops of the main block, one line of
    input at a time: [input()] writes its question and reads the next
    line, and the branch taken decides which prompt comes next. *)
Fixpoint session (np_url_dict : dict string) (lines : list string) (p : prompt)
  (w : world) : stop * world :=
  match p, lines with
  | AskState, [] => (EOFError, add_line state_question w)
  | AskNumber _, [] => (EOFError, add_line number_question w)
  | AskState, state :: rest =>
      let w := add_line state_question w in
      if String.eqb (PyStr.lower state) "exit" then (SystemExit, w)
      else if negb (dict_mem np_url_dict (PyStr.lower state)) then
        session np_url_dict rest AskState
          (add_line ("[Error] Enter a state name." ++ newline) w)
      else
        let w := add_line (repeat_str "-" 40) w in
        let w := add_line ("List of national sites in " ++ py_title state) w in
        match getitem np_url_dict (PyStr.lower state) w with
        | (Raise e, w) => (Uncaught e, w)
        | (Ok state_url, w) =>
            match get_sites_for_state html_parser state_url w with
            | (Raise e, w) => (Uncaught e, w)
            | (Ok state_nps_list, w) =>
                let w := print_listing state_nps_list 1%Z w in
                let w := add_line (repeat_str "-" 40) w in
                session np_url_dict rest (AskNumber state_nps_list) w
            end
        end
  | AskNumber state_nps_list, num :: rest =>
      let w := add_line number_question w in
      if String.eqb num "exit" then (SystemExit, w)
      else if String.eqb num "back" then session np_url_dict rest AskState w
      else
        match choose_number state_nps_list num w with
        | (Some s, w) => (s, w)
        | (None, w) => session np_url_dict rest (AskNumber state_nps_list) w
        end
  end.

(** The main block: build the index, then ask. *)
Definition main (lines : list string) (w : world) : stop * world :=
  match build_state_url_dict html_parser w with
  | (Raise e, w) => (Uncaught e, w)
  | (Ok np_url_dict, w) => session np_url_dict lines AskState w
  end.

End Session.

End Main.

(** ** A small site used as an example *)

Module Site.

(** The listing page of a state: one heading per site. *)
Definition park_heading (park_ref : string) : node :=
  NTag "li" [("class", "clearfix")]
    [NTag "h3" [] [NTag "a" [("href", park_ref)] [NText "a site"]]].

Definition state_page (park_refs : list string) : node :=
  NTag "[document]" []
    [NTag "ul" [("id", "list_parks")] (map park_heading park_refs)].

Definition mi_url : string := "https://www.nps.gov/state/mi/index.htm".

(** A parser for three pages, told apart by their text. *)
Definition parser (markup : string) : node :=
  if String.eqb markup "home" then
    Fixtures.homepage [("Michigan", "/state/mi/index.htm")]
  else if String.eqb markup "state" then state_page ["/isro/"]
  else Fixtures.detail_page (Some ("Houghton", "MI", "49931 ")) "(906) 482-0984".

(** The cache file after a first run: the three pages. *)
Definition pages : json :=
  JObj [(Fixtures.home_url, JStr "home"); (mi_url, JStr "state");
        (Fixtures.isro_url, JStr "site")].

Definition offline : world := Fixtures.with_file (Document pages) Fixtures.dead_net.

Definition online : world := Fixtures.with_file (Document pages) Fixtures.echo_net.

(** [s.title()] on the names the examples use. *)
Definition title (s : string) : string :=
  match s with
  | EmptyString => EmptyString
  | String c rest => String (ascii_of_nat (nat_of_ascii c - 32)) rest
  end.

End Site.

(** ** Further observations *)

(** A network that answers every request, with a body that is JSON. *)
Definition answering (w : world) : Prop :=
  forall history url,
    exists r, internet w history url = Some r /\ json_body r <> None.

(** The mapping with every value written out as the string it is
    formatted to. *)
Definition stringified (params : dict param_value) : dict param_value :=
  map (fun kv => (fst kv, PStr (format_param (snd kv)))) params.

(** The address [get_nearby_places] asks for. *)
Definition places_url (consumer_key zip : string) : string :=
  MAP_URL ++ "?ambiguities=ignore&key=" ++ consumer_key
  ++ "&maxMatches=10&origin=" ++ zip ++ "&outFormat=json&radius=10".

(** More pages for the examples. *)
Module Pages.

(** A detail page whose address block has a locality and nothing else. *)
Definition incomplete_page : node :=
  NTag "[document]" []
    [NTag "div" [("class", "Hero-titleContainer clearfix")]
       [NTag "a" [("href", "/yose/")] [NText "Yosemite"];
        NTag "div" [("class", "Hero-designationContainer")]
          [NTag "span" [("class", "Hero-designation")] [NText "National Park"]]];
     NTag "p" [("class", "adr")]
       [NTag "span" [("itemprop", "addressLocality")] [NText "Yosemite"]];
     NTag "span" [("itemprop", "telephone")] [NText "209/372-0200"]].

(** A homepage whose second list item has no link. *)
Definition broken_homepage : node :=
  NTag "[document]" []
    [NTag "div"
       [("class", "SearchBar-keywordSearch input-group input-group-lg")]
       [NTag "ul" []
          [Fixtures.state_item ("Alabama", "/state/al/index.htm");
           NTag "li" [] [NText "Alaska"]]]].

(** Two sites of a listing. *)
Definition isle_royale : NationalSite :=
  {| category := "National Park"; name := "Isle Royale";
     address := "Houghton, MI"; zipcode := "49931";
     phone := "(906) 482-0984" |}.

Definition keweenaw : NationalSite :=
  {| category := "National Historical Park"; name := "Keweenaw";
     address := "Calumet, MI"; zipcode := "49913";
     phone := "(906) 337-3168" |}.

End Pages.

(** * Properties *)

(** ** Order on strings *)

Lemma ascii_compare_refl c : Ascii.compare c c = Eq.
Proof. unfold Ascii.compare. apply N.compare_refl. Qed.

Lemma string_compare_refl s : String.compare s s = Eq.
Proof.
  induction s as [|c s IH]; simpl; [reflexivity|].
  now rewrite ascii_compare_refl.
Qed.

Lemma string_compare_lt_trans s1 s2 s3 :
  String.compare s1 s2 = Lt -> String.compare s2 s3 = Lt ->
  String.compare s1 s3 = Lt.
Proof.
  revert s2 s3. induction s1 as [|a s1 IH]; intros [|b s2] [|c s3]; simpl;
    try discriminate; try reflexivity.
  unfold Ascii.compare.
  destruct (N.compare (N_of_ascii a) (N_of_ascii b)) eqn:Eab; try discriminate;
    destruct (N.compare (N_of_ascii b) (N_of_ascii c)) eqn:Ebc; try discriminate;
    intros H1 H2.
  - apply N.compare_eq_iff in Eab, Ebc. rewrite Eab, Ebc, N.compare_refl.
    now apply IH with s2.
  - apply N.compare_eq_iff in Eab. now rewrite Eab, Ebc.
  - apply N.compare_eq_iff in Ebc. now rewrite <- Ebc, Eab.
  - rewrite N.compare_lt_iff in *.
    assert (Hlt : (N_of_ascii a < N_of_ascii c)%N) by lia.
    apply N.compare_lt_iff in Hlt. now rewrite Hlt.
Qed.

Lemma string_leb_refl s : String.leb s s = true.
Proof. unfold String.leb. now rewrite string_compare_refl. Qed.

Lemma string_leb_trans s1 s2 s3 :
  String.leb s1 s2 = true -> String.leb s2 s3 = true -> String.leb s1 s3 = true.
Proof.
  unfold String.leb.
  destruct (String.compare s1 s2) eqn:E12; try discriminate;
    destruct (String.compare s2 s3) eqn:E23; try discriminate; intros _ _.
  - apply String.compare_eq_iff in E12, E23. subst.
    now rewrite string_compare_refl.
  - apply String.compare_eq_iff in E12. subst. now rewrite E23.
  - apply String.compare_eq_iff in E23. subst. now rewrite E12.
  - now rewrite (string_compare_lt_trans _ _ _ E12 E23).
Qed.

(** ** Insertion sort *)

Section SortFacts.
Context {A : Type} (le : A -> A -> bool).

Local Abbreviation R := (fun x y => le x y = true).

Lemma insert_perm x l : Permutation (insert le x l) (x :: l).
Proof.
  induction l as [|y rest IH]; simpl; [reflexivity|].
  destruct (le x y); [reflexivity|].
  rewrite IH. apply perm_swap.
Qed.

Lemma isort_perm l : Permutation (isort le l) l.
Proof.
  induction l as [|x rest IH]; simpl; [reflexivity|].
  rewrite insert_perm. now rewrite IH.
Qed.

Hypothesis le_total : forall x y, le x y = true \/ le y x = true.
Hypothesis le_trans : forall x y z, le x y = true -> le y z = true -> le x z = true.

Lemma insert_sorted x l :
  StronglySorted R l -> StronglySorted R (insert le x l).
Proof.
  induction 1 as [|y rest Hs IH Hall]; simpl.
  - constructor; constructor.
  - destruct (le x y) eqn:E.
    + constructor; [now constructor|].
      constructor; [exact E|].
      eapply Forall_impl; [|exact Hall]. intros z Hz. now apply le_trans with y.
    + constructor; [exact IH|].
      assert (Hyx : le y x = true) by (destruct (le_total x y); congruence).
      eapply Permutation_Forall; [symmetry; apply insert_perm|].
      now constructor.
Qed.

Lemma isort_sorted l : StronglySorted R (isort le l).
Proof.
  induction l as [|x rest IH]; simpl; [constructor|].
  now apply insert_sorted.
Qed.

Hypothesis le_antisym : forall x y, le x y = true -> le y x = true -> x = y.

(** Two sorted lists with the same elements are the same list. *)
Lemma sorted_perm_unique l1 l2 :
  StronglySorted R l1 -> StronglySorted R l2 -> Permutation l1 l2 -> l1 = l2.
Proof.
  intros Hs1. revert l2.
  induction Hs1 as [|a l1 Hs1 IH Hall1]; intros l2 Hs2 Hp.
  - apply Permutation_nil in Hp. now subst.
  - destruct Hs2 as [|b l2 Hs2 Hall2].
    + symmetry in Hp. apply Permutation_nil in Hp. discriminate.
    + assert (Hab : a = b).
      { assert (Ha : In a (b :: l2))
          by (eapply Permutation_in; [exact Hp|now left]).
        assert (Hb : In b (a :: l1))
          by (eapply Permutation_in; [symmetry; exact Hp|now left]).
        destruct Ha as [Ha|Ha]; [now subst|].
        destruct Hb as [Hb|Hb]; [now subst|].
        apply le_antisym.
        - rewrite Forall_forall in Hall1. now apply Hall1.
        - rewrite Forall_forall in Hall2. now apply Hall2. }
      subst b. f_equal. apply IH; [exact Hs2|].
      now apply Permutation_cons_inv with a.
Qed.

Lemma isort_of_sorted_perm l sorted :
  StronglySorted R sorted -> Permutation sorted l -> isort le l = sorted.
Proof.
  intros Hs Hp. apply sorted_perm_unique; [apply isort_sorted|exact Hs|].
  rewrite isort_perm. now symmetry.
Qed.

Lemma isort_permutation_invariant l1 l2 :
  Permutation l1 l2 -> isort le l1 = isort le l2.
Proof.
  intros Hp. apply isort_of_sorted_perm; [apply isort_sorted|].
  now rewrite isort_perm.
Qed.

End SortFacts.

(** ** Dictionaries *)

Section DictFacts.
Context {V : Type}.
Implicit Types (d : dict V) (k : string) (v : V).

Lemma dict_get_set_same d k v : dict_get (dict_set d k v) k = Some v.
Proof.
  induction d as [|[k' v'] rest IH]; simpl.
  - now rewrite String.eqb_refl.
  - destruct (String.eqb k k') eqn:E; simpl.
    + now rewrite String.eqb_refl.
    + now rewrite E.
Qed.

Lemma dict_get_set_other d k k' v :
  k' <> k -> dict_get (dict_set d k v) k' = dict_get d k'.
Proof.
  intros Hne. induction d as [|[k0 v0] rest IH]; simpl.
  - apply String.eqb_neq in Hne. now rewrite Hne.
  - destruct (String.eqb k k0) eqn:E; simpl.
    + apply String.eqb_eq in E. subst k0.
      apply String.eqb_neq in Hne. now rewrite Hne.
    + now rewrite IH.
Qed.

Lemma dict_mem_true d k : dict_mem d k = true <-> exists v, dict_get d k = Some v.
Proof.
  unfold dict_mem. destruct (dict_get d k) as [v|]; split.
  - intros _. now exists v.
  - reflexivity.
  - discriminate.
  - intros [v Hv]. discriminate.
Qed.

Lemma dict_mem_false d k : dict_mem d k = false <-> dict_get d k = None.
Proof.
  unfold dict_mem. destruct (dict_get d k); split; congruence.
Qed.

End DictFacts.


(** ** The response cache *)

(** Unfold one call of the cache down to the case analysis on the file,
    the membership test and the reply of the network. *)
Ltac cache_unfold :=
  unfold fetch_or_get, make_request_with_cache, map_make_request_with_cache,
    bind, open_cache, keys_view, print, requests_get, response_json,
    save_cache, getitem, ret, raise, add_line, add_request, put_file in *.

(** A hit: the stored value is returned and only a line is printed. *)
Lemma fetch_or_get_hit kind key w d v :
  loaded_store w = Some d -> dict_get d key = Some v ->
  fetch_or_get kind key w = (Ok v, add_line "Using Cache" w).
Proof.
  intros Hd Hv.
  assert (Hm : dict_mem d key = true) by (apply dict_mem_true; eauto).
  destruct w as [f net req out wr].
  unfold loaded_store, open_cache in Hd.
  destruct kind; cache_unfold; simpl in *;
    destruct f as [| |[]]; simpl in *; try discriminate;
    injection Hd as <-; simpl in *; try discriminate;
    rewrite Hm; simpl; rewrite Hv; reflexivity.
Qed.

(** A miss in text mode, the network answering. *)
Lemma make_request_with_cache_miss w d key r :
  loaded_store w = Some d -> dict_get d key = None ->
  internet w (requested w) key = Some r ->
  make_request_with_cache key w =
    (Ok (JStr (text r)),
     put_file (JObj (dict_set d key (JStr (text r))))
       (add_request key (add_line "Fetching" w))).
Proof.
  intros Hd Hv Hr.
  assert (Hm : dict_mem d key = false) by (now apply dict_mem_false).
  destruct w as [f net req out wr].
  unfold loaded_store, open_cache in Hd.
  cache_unfold; simpl in *.
  destruct f as [| |[]]; simpl in *; try discriminate;
    injection Hd as <-; simpl in *; try rewrite Hm; simpl; rewrite Hr; simpl;
    rewrite ?String.eqb_refl, ?dict_get_set_same; reflexivity.
Qed.

(** A miss in JSON mode, the network answering with a JSON body. *)
Lemma map_make_request_with_cache_miss w d key r value :
  loaded_store w = Some d -> dict_get d key = None ->
  internet w (requested w) key = Some r -> json_body r = Some value ->
  map_make_request_with_cache key w =
    (Ok value,
     put_file (JObj (dict_set d key value))
       (add_request key (add_line "Fetching" w))).
Proof.
  intros Hd Hv Hr Hj.
  assert (Hm : dict_mem d key = false) by (now apply dict_mem_false).
  destruct w as [f net req out wr].
  unfold loaded_store, open_cache in Hd.
  cache_unfold; simpl in *.
  destruct f as [| |[]]; simpl in *; try discriminate;
    injection Hd as <-; simpl in *; try rewrite Hm; simpl; rewrite Hr; simpl;
    rewrite Hj; simpl; rewrite ?String.eqb_refl, ?dict_get_set_same; reflexivity.
Qed.

(** Every call falls under one of the cases. *)
Lemma fetch_or_get_cases kind key w :
  call_case kind key w (fetch_or_get kind key w).
Proof.
  destruct (loaded_store w) as [d|] eqn:Hd.
  - destruct (dict_get d key) as [v|] eqn:Hv.
    + rewrite (fetch_or_get_hit kind key w d v Hd Hv). now apply case_hit with d.
    + destruct (internet w (requested w) key) as [r|] eqn:Hr.
      * destruct kind; simpl.
        -- rewrite (make_request_with_cache_miss w d key r Hd Hv Hr).
           now apply (case_miss Text key w d r (JStr (text r))).
        -- destruct (json_body r) as [value|] eqn:Hj.
           ++ rewrite (map_make_request_with_cache_miss w d key r value Hd Hv Hr Hj).
              now apply (case_miss Json key w d r value).
           ++ replace (map_make_request_with_cache key w)
                with (@Raise json JSONDecodeError,
                      add_request key (add_line "Fetching" w)).
              ** now apply case_not_json with d r.
              ** apply dict_mem_false in Hv.
                 destruct w as [f net req out wr].
                 unfold loaded_store, open_cache in Hd.
                 cache_unfold; simpl in *.
                 destruct f as [| |[]]; simpl in *; try discriminate;
                   injection Hd as <-; simpl in *; try rewrite Hv; simpl;
                   rewrite Hr; simpl; rewrite Hj; reflexivity.
      * replace (fetch_or_get kind key w)
          with (@Raise json RequestException,
                add_request key (add_line "Fetching" w)).
        -- now apply case_network_down with d.
        -- apply dict_mem_false in Hv.
           destruct w as [f net req out wr].
           unfold loaded_store, open_cache in Hd.
           destruct kind; cache_unfold; simpl in *;
             destruct f as [| |[]]; simpl in *; try discriminate;
             injection Hd as <-; simpl in *; try rewrite Hv; simpl;
             rewrite Hr; reflexivity.
  - replace (fetch_or_get kind key w) with (@Raise json AttributeError, w).
    + now apply case_not_a_dict.
    + destruct w as [f net req out wr].
      unfold loaded_store, open_cache in Hd.
      destruct kind; cache_unfold; simpl in *;
        destruct f as [| |[]]; simpl in *; try discriminate; reflexivity.
Qed.

Lemma loaded_store_add_line line w : loaded_store (add_line line w) = loaded_store w.
Proof. unfold loaded_store, open_cache; simpl. now destruct (cache_file w). Qed.

Lemma loaded_store_add_request url w :
  loaded_store (add_request url w) = loaded_store w.
Proof. unfold loaded_store, open_cache; simpl. now destruct (cache_file w). Qed.

Lemma loaded_store_put_file d w : loaded_store (put_file (JObj d) w) = Some d.
Proof. reflexivity. Qed.

(** C1, as the code has it. Cache idempotence: when a call of
    [fetch_or_get] returns a value, the same call made again returns
    that same value and asks the network nothing, so the two calls
    together ask the network at most once; the second call writes
    nothing either. *)
Theorem cache_idempotence kind key w v w1 :
  fetch_or_get kind key w = (Ok v, w1) ->
  exists w2,
    fetch_or_get kind key w1 = (Ok v, w2) /\
    requested w2 = requested w1 /\
    (requested w2 = requested w \/ requested w2 = (requested w ++ [key])%list) /\
    cache_file w2 = cache_file w1 /\ written w2 = written w1.
Proof.
  intros Hcall.
  pose proof (fetch_or_get_cases kind key w) as Hcase.
  rewrite Hcall in Hcase.
  inversion Hcase as [ | d v0 Hd Hv | | | d r value Hd Hv Hr Hvalue ]; subst.
  - exists (add_line "Using Cache" (add_line "Using Cache" w)).
    split; [|simpl; auto].
    apply fetch_or_get_hit with d; [now rewrite loaded_store_add_line | exact Hv].
  - exists (add_line "Using Cache"
              (put_file (JObj (dict_set d key v))
                 (add_request key (add_line "Fetching" w)))).
    split; [|simpl; auto].
    apply fetch_or_get_hit with (dict_set d key v);
      [apply loaded_store_put_file | apply dict_get_set_same].
Qed.

(** The failed fetch is not remembered: with the network down, each of
    two calls asks it. *)
Lemma failed_fetch_is_retried kind key :
  let w1 := snd (fetch_or_get kind key (Fixtures.fresh Fixtures.dead_net)) in
  fst (fetch_or_get kind key (Fixtures.fresh Fixtures.dead_net))
    = Raise RequestException /\
  requested (snd (fetch_or_get kind key w1)) = [key; key].
Proof. destruct kind; split; reflexivity. Qed.

(** With the network down, two calls for the home page both raise and
    both ask the network: the second call is a new request, and the two
    calls together ask twice. *)
Lemma failed_fetch_is_fetched_twice :
  let w := Fixtures.fresh Fixtures.dead_net in
  let w1 := snd (fetch_or_get Text Fixtures.home_url w) in
  let w2 := snd (fetch_or_get Text Fixtures.home_url w1) in
  fst (fetch_or_get Text Fixtures.home_url w) = Raise RequestException /\
  fst (fetch_or_get Text Fixtures.home_url w1) = Raise RequestException /\
  requested w1 = [Fixtures.home_url] /\
  requested w2 = [Fixtures.home_url; Fixtures.home_url] /\
  requested w2 <> requested w1 /\
  ~ (List.length (requested w2) <= List.length (requested w) + 1)%nat.
Proof.
  simpl. repeat split; try discriminate. lia.
Qed.

(** One call keeps every stored value. *)
Lemma fetch_or_get_preserves kind key w k v :
  stored w k = Some v -> stored (snd (fetch_or_get kind key w)) k = Some v.
Proof.
  intros Hk.
  pose proof (fetch_or_get_cases kind key w) as Hcase.
  inversion Hcase as [ Hd HH | d v0 Hd Hv HH | d Hd Hv Hr HH
                     | d r Hd Hv Hr Hkind Hj HH
                     | d r value Hd Hv Hr Hvalue HH ];
    simpl; unfold stored in *;
    rewrite ?loaded_store_add_request, ?loaded_store_add_line; try exact Hk.
  rewrite loaded_store_put_file. rewrite Hd in Hk.
  rewrite dict_get_set_other; [exact Hk|].
  intros ->. congruence.
Qed.

(** C5. Over any sequence of [fetch_or_get] calls, in either mode, a key
    that the store holds keeps its value: after the calls the store on
    disk still maps it to the same value, and a call for it returns that
    value. *)
Theorem stored_value_is_kept calls w k v :
  stored w k = Some v ->
  stored (run_calls calls w) k = Some v /\
  forall kind, fst (fetch_or_get kind k (run_calls calls w)) = Ok v.
Proof.
  revert w. induction calls as [|[kind key] rest IH]; intros w Hk; simpl.
  - split; [exact Hk|]. intros kind.
    unfold stored in Hk. destruct (loaded_store w) as [d|] eqn:Hd; [|discriminate].
    now rewrite (fetch_or_get_hit kind k w d v Hd Hk).
  - apply IH. now apply fetch_or_get_preserves.
Qed.

(** C10. A call whose key the loaded store holds returns the stored
    value and leaves the cache file as it is: nothing is written and
    nothing is requested.  A call that does write found the key absent. *)
Theorem hit_writes_nothing kind key w :
  (forall v, stored w key = Some v ->
     fst (fetch_or_get kind key w) = Ok v /\
     cache_file (snd (fetch_or_get kind key w)) = cache_file w /\
     written (snd (fetch_or_get kind key w)) = written w /\
     requested (snd (fetch_or_get kind key w)) = requested w) /\
  (written (snd (fetch_or_get kind key w)) <> written w ->
     exists d, loaded_store w = Some d /\ dict_get d key = None).
Proof.
  split.
  - intros v Hk. unfold stored in Hk.
    destruct (loaded_store w) as [d|] eqn:Hd; [|discriminate].
    rewrite (fetch_or_get_hit kind key w d v Hd Hk). simpl. auto.
  - intros Hw.
    pose proof (fetch_or_get_cases kind key w) as Hcase.
    inversion Hcase as [ Hd HH | d v0 Hd Hv HH | d Hd Hv Hr HH
                       | d r Hd Hv Hr Hkind Hj HH
                       | d r value Hd Hv Hr Hvalue HH ];
      rewrite <- HH in Hw; simpl in Hw; try congruence.
    now exists d.
Qed.

(** [open_cache] returns, and changes nothing. *)
Lemma open_cache_returns w : exists j, open_cache w = (Ok j, w).
Proof.
  unfold open_cache. destruct (cache_file w); eauto.
Qed.

(** A missing or unparseable file gives the empty store. *)
Lemma open_cache_empty w :
  cache_file w = NoFile \/ cache_file w = Unparseable ->
  open_cache w = (Ok empty_dict, w).
Proof.
  unfold open_cache. intros [-> | ->]; reflexivity.
Qed.

(** C4. A cache file that holds a JSON list: [open_cache] returns the
    list, which is no store, and the cache call that loads it raises
    before it reaches the network. *)
Theorem open_cache_list_document :
  let w := Fixtures.with_file (Document (JArr [])) Fixtures.echo_net in
  open_cache w = (Ok (JArr []), w) /\
  loaded_store w = None /\
  make_request_with_cache "https://www.nps.gov/index.htm" w
    = (Raise AttributeError, w).
Proof. repeat split. Qed.

(** ** The cache-key builder *)

Lemma sort_perm l : Permutation (PyStr.sort l) l.
Proof. apply isort_perm. Qed.

Lemma sort_sorted l :
  StronglySorted (fun a b => String.leb a b = true) (PyStr.sort l).
Proof.
  apply isort_sorted; [apply String.leb_total | apply string_leb_trans].
Qed.

Lemma sort_permutation_invariant l1 l2 :
  Permutation l1 l2 -> PyStr.sort l1 = PyStr.sort l2.
Proof.
  apply isort_permutation_invariant;
    [apply String.leb_total | apply string_leb_trans | apply String.leb_antisym].
Qed.

(** Two dictionaries with the same key/value pairs list them in orders
    that are permutations of each other. *)
Lemma same_pairs_permutation {V} (P1 P2 : dict V) :
  NoDup (dict_keys P1) -> NoDup (dict_keys P2) ->
  (forall kv, In kv P1 <-> In kv P2) -> Permutation P1 P2.
Proof.
  intros H1 H2 Hsame.
  apply NoDup_Permutation; [| |exact Hsame].
  - now apply NoDup_map_inv with (f := fst).
  - now apply NoDup_map_inv with (f := fst).
Qed.

(** C2. Two parameter mappings with the same key/value pairs, in
    whatever order each was built, give the same key. *)
Theorem key_independent_of_order url (P1 P2 : dict param_value) :
  NoDup (dict_keys P1) -> NoDup (dict_keys P2) ->
  (forall kv, In kv P1 <-> In kv P2) ->
  construct_unique_key url P1 = construct_unique_key url P2.
Proof.
  intros H1 H2 Hsame. unfold construct_unique_key.
  do 3 f_equal. apply sort_permutation_invariant.
  apply Permutation_map. now apply same_pairs_permutation.
Qed.

Lemma key_independent_of_order_witness :
  construct_unique_key MAP_URL
    [("origin", PStr "49931"); ("radius", PInt 10); ("outFormat", PStr "json")]
  = construct_unique_key MAP_URL
    [("outFormat", PStr "json"); ("origin", PStr "49931"); ("radius", PInt 10)].
Proof.
  apply key_independent_of_order.
  - repeat constructor; simpl; intuition discriminate.
  - repeat constructor; simpl; intuition discriminate.
  - intros kv; simpl; intuition.
Defined.

(** With keys [a] and [a1] the strings [a=1] and [a1=2] sort the second
    before the first, although [a] sorts before [a1]. *)
Lemma key_not_sorted_by_key_name :
  construct_unique_key "http://x/y" [("a", PInt 1); ("a1", PInt 2)]
    = "http://x/y?a1=2&a=1" /\
  build_key_by_key_name "http://x/y" [("a", PInt 1); ("a1", PInt 2)]
    = "http://x/y?a=1&a1=2" /\
  construct_unique_key "http://x/y" [("a", PInt 1); ("a1", PInt 2)]
    <> build_key_by_key_name "http://x/y" [("a", PInt 1); ("a1", PInt 2)].
Proof. repeat split. discriminate. Qed.

(** Where the longer key goes on with a character after ["="], the
    [key=value] strings compare as their keys do. *)
Lemma param_string_leb k1 v1 k2 v2 :
  all_after_equals k2 = true -> k1 <> k2 -> String.leb k1 k2 = true ->
  String.leb (k1 ++ "=" ++ v1) (k2 ++ "=" ++ v2) = true.
Proof.
  revert k2. induction k1 as [|a k1 IH]; intros [|b k2] Hall Hne Hle; simpl in *.
  - congruence.
  - apply andb_prop in Hall. destruct Hall as [Hb _].
    unfold after_equals in Hb. apply N.ltb_lt in Hb.
    unfold String.leb. simpl. unfold Ascii.compare.
    change (N_of_ascii "=") with 61%N.
    apply N.compare_lt_iff in Hb. now rewrite Hb.
  - discriminate.
  - apply andb_prop in Hall. destruct Hall as [_ Hall].
    unfold String.leb in *. simpl in *.
    destruct (Ascii.compare a b) eqn:Eab; try discriminate; [|reflexivity].
    apply Ascii.compare_eq_iff in Eab. subst b.
    apply IH; [exact Hall| |exact Hle]. intros ->. now apply Hne.
Qed.

Lemma param_strings_sorted (l : dict param_value) :
  StronglySorted (fun a b => key_leb a b = true) l ->
  NoDup (dict_keys l) ->
  forallb all_after_equals (dict_keys l) = true ->
  StronglySorted (fun a b => String.leb a b = true) (map param_string l).
Proof.
  induction 1 as [|[k v] rest Hs IH Hall]; intros Hnd Hkeys; simpl in *.
  - constructor.
  - inversion Hnd as [|k' ks Hnotin Hnd']; subst.
    apply andb_prop in Hkeys. destruct Hkeys as [Hk Hkeys].
    constructor; [now apply IH|].
    rewrite Forall_forall in *. intros s Hs'.
    apply in_map_iff in Hs'. destruct Hs' as [[k2 v2] [<- Hin]].
    unfold param_string; simpl.
    apply param_string_leb.
    + rewrite forallb_forall in Hkeys. apply Hkeys.
      unfold dict_keys. apply in_map_iff. now exists (k2, v2).
    + intros ->. apply Hnotin. apply in_map_iff. now exists (k2, v2).
    + apply (Hall (k2, v2) Hin).
Qed.

Lemma key_leb_total kv kv' : key_leb kv kv' = true \/ key_leb kv' kv = true.
Proof. apply String.leb_total. Qed.

Lemma key_leb_trans x y z :
  key_leb x y = true -> key_leb y z = true -> key_leb x z = true.
Proof. apply string_leb_trans. Qed.

(** C3, as the code has it. The key is the base URL, ["?"], and the
    [key=value] strings of the mapping joined by ["&"], these strings
    being sorted as whole strings; this is the order of the key names
    when every key is made of characters that sort after ["="] (letters
    and the underscore do), and [{"b": 2, "a": 1}] on ["http://x/y"]
    gives ["http://x/y?a=1&b=2"]. *)
Theorem key_is_sorted_param_strings url (P : dict param_value) :
  (exists strings,
      construct_unique_key url P = url ++ "?" ++ PyStr.join "&" strings /\
      Permutation strings (map param_string P) /\
      StronglySorted (fun a b => String.leb a b = true) strings) /\
  (NoDup (dict_keys P) -> forallb all_after_equals (dict_keys P) = true ->
   construct_unique_key url P = build_key_by_key_name url P) /\
  construct_unique_key "http://x/y" [("b", PInt 2); ("a", PInt 1)]
    = "http://x/y?a=1&b=2".
Proof.
  split; [|split; [|reflexivity]].
  - exists (PyStr.sort (map param_string P)).
    split; [reflexivity|]. split; [apply sort_perm | apply sort_sorted].
  - intros Hnd Hkeys. unfold construct_unique_key, build_key_by_key_name.
    do 3 f_equal. unfold PyStr.sort.
    assert (Hp : Permutation (sort_by_key P) P) by apply isort_perm.
    apply isort_of_sorted_perm;
      [apply String.leb_total | apply string_leb_trans | apply String.leb_antisym
      | | now apply Permutation_map].
    apply param_strings_sorted.
    + apply isort_sorted; [apply key_leb_total | apply key_leb_trans].
    + apply (Permutation_NoDup (l := dict_keys P)); [|exact Hnd].
      symmetry. now apply Permutation_map.
    + apply forallb_forall. intros k Hk.
      rewrite forallb_forall in Hkeys. apply Hkeys.
      eapply Permutation_in; [|exact Hk]. now apply Permutation_map.
Qed.

Lemma key_is_sorted_param_strings_witness :
  construct_unique_key MAP_URL
    [("origin", PStr "49931"); ("radius", PInt 10); ("maxMatches", PInt 10)]
  = build_key_by_key_name MAP_URL
    [("origin", PStr "49931"); ("radius", PInt 10); ("maxMatches", PInt 10)].
Proof.
  apply (key_is_sorted_param_strings MAP_URL
           [("origin", PStr "49931"); ("radius", PInt 10); ("maxMatches", PInt 10)]).
  - repeat constructor; simpl; intuition discriminate.
  - reflexivity.
Defined.

(** ** Trimming *)

Lemma lstrip_spec s :
  exists l,
    s = l ++ PyStr.lstrip s /\ PyStr.all_space l = true /\
    forall c, PyStr.first_char (PyStr.lstrip s) = Some c -> PyStr.isspace c = false.
Proof.
  induction s as [|c rest IH]; simpl.
  - exists "". repeat split. discriminate.
  - destruct (PyStr.isspace c) eqn:Ec.
    + destruct IH as [l [Heq [Hl Hfirst]]].
      exists (String c l). simpl. rewrite Ec, Hl. repeat split; [|exact Hfirst].
      now rewrite <- Heq.
    + exists "". repeat split. simpl. now intros c' [= <-].
Qed.

Lemma rstrip_spec s :
  exists r,
    s = PyStr.rstrip s ++ r /\ PyStr.all_space r = true /\
    forall c, PyStr.last_char (PyStr.rstrip s) = Some c -> PyStr.isspace c = false.
Proof.
  induction s as [|c rest IH]; simpl.
  - exists "". repeat split. discriminate.
  - destruct IH as [r [Heq [Hr Hlast]]].
    destruct (PyStr.rstrip rest) as [|c' kept] eqn:Ek.
    + simpl in Heq. subst r.
      destruct (PyStr.isspace c) eqn:Ec.
      * exists (String c rest). simpl. rewrite Ec, Hr. repeat split. discriminate.
      * exists rest. repeat split; [exact Hr|]. simpl. now intros c0 [= <-].
    + exists r. repeat split; [|exact Hr|exact Hlast].
      simpl. f_equal. exact Heq.
Qed.

Lemma rstrip_first_char s c :
  PyStr.first_char (PyStr.rstrip s) = Some c -> PyStr.first_char s = Some c.
Proof.
  destruct s as [|a rest]; simpl; [discriminate|].
  destruct (PyStr.rstrip rest); [destruct (PyStr.isspace a)|]; simpl;
    try discriminate; auto.
Qed.

(** [strip] removes white space from both ends and nothing else. *)
Lemma strip_spec s : PyStr.trim_of s (PyStr.strip s).
Proof.
  destruct (lstrip_spec s) as [l [Hl [Hls Hfirst]]].
  destruct (rstrip_spec (PyStr.lstrip s)) as [r [Hr [Hrs Hlast]]].
  exists l, r. unfold PyStr.strip, PyStr.trimmed.
  split; [now rewrite <- Hr|].
  repeat split; auto.
  intros c Hc. apply Hfirst. now apply rstrip_first_char.
Qed.

(** ** The site fetcher *)

Section SiteFacts.

Variable html_parser : string -> node.

(** Once the page is fetched, the record is read off the page: the
    header, the address and the telephone, each of which raises
    [AttributeError] when its element is missing. *)
Lemma get_site_instance_fetched site_url w markup w1 :
  make_request_with_cache site_url w = (Ok (JStr markup), w1) ->
  get_site_instance html_parser site_url w =
    (match header_of (html_parser markup),
           address_zipcode_of (html_parser markup),
           telephone_of (html_parser markup) with
     | Some (site_name, site_category), Some (site_address, site_zipcode),
       Some telephone =>
         Ok {| category := site_category; name := site_name;
               address := site_address; zipcode := site_zipcode;
               phone := PyStr.strip telephone |}
     | _, _, _ => Raise AttributeError
     end, w1).
Proof.
  intros Hfetch.
  unfold get_site_instance, bind. rewrite Hfetch.
  unfold BeautifulSoup, ret.
  unfold header_of, address_zipcode_of, has_address_block, address_parts_of,
    telephone_of, option_map, dot, ret, raise.
  repeat match goal with
         | |- context [Soup.find ?n ?a ?t] => destruct (Soup.find n a t)
         end; reflexivity.
Qed.

(** C6. On a fetched detail page without an address block, with its
    header and telephone in place, [get_site_instance] returns the
    record whose address is ["No address"] and whose zip code is
    ["No zipcode"]. *)
Theorem absent_address_gives_sentinels
  site_url w markup w1 site_name site_category telephone :
  make_request_with_cache site_url w = (Ok (JStr markup), w1) ->
  header_of (html_parser markup) = Some (site_name, site_category) ->
  telephone_of (html_parser markup) = Some telephone ->
  has_address_block (html_parser markup) = false ->
  exists site,
    get_site_instance html_parser site_url w = (Ok site, w1) /\
    address site = "No address" /\ zipcode site = "No zipcode" /\
    name site = site_name /\ category site = site_category /\
    PyStr.trim_of telephone (phone site).
Proof.
  intros Hfetch Hhead Hphone Hadr.
  rewrite (get_site_instance_fetched _ _ _ _ Hfetch).
  unfold address_zipcode_of. rewrite Hhead, Hphone, Hadr.
  eexists. split; [reflexivity|]. simpl. repeat split.
  apply strip_spec.
Qed.

(** Without an address block, only a missing header or telephone
    makes the fetched page raise. *)
Lemma absent_address_raises_iff site_url w markup w1 :
  make_request_with_cache site_url w = (Ok (JStr markup), w1) ->
  has_address_block (html_parser markup) = false ->
  fst (get_site_instance html_parser site_url w) = Raise AttributeError <->
  header_of (html_parser markup) = None \/
  telephone_of (html_parser markup) = None.
Proof.
  intros Hfetch Hadr.
  rewrite (get_site_instance_fetched _ _ _ _ Hfetch).
  unfold address_zipcode_of. rewrite Hadr. simpl.
  destruct (header_of (html_parser markup)) as [[n c]|];
    destruct (telephone_of (html_parser markup)); simpl;
    split; auto; try discriminate; intros [H|H]; discriminate.
Qed.

(** C7, as the code has it. On a fetched detail page with an address
    block and its elements in place, the address is the locality and
    the region as the page has them, joined by [", "], and the zip code
    is the postal code without the white space around it. Whenever a
    record is returned, its phone is the telephone text without the
    white space around it. *)
Theorem address_block_fields site_url w markup w1 :
  make_request_with_cache site_url w = (Ok (JStr markup), w1) ->
  (forall site_name site_category locality region postal telephone,
      has_address_block (html_parser markup) = true ->
      header_of (html_parser markup) = Some (site_name, site_category) ->
      address_parts_of (html_parser markup) = Some (locality, region, postal) ->
      telephone_of (html_parser markup) = Some telephone ->
      exists site,
        get_site_instance html_parser site_url w = (Ok site, w1) /\
        address site = locality ++ ", " ++ region /\
        PyStr.trim_of postal (zipcode site)) /\
  (forall site,
      fst (get_site_instance html_parser site_url w) = Ok site ->
      exists telephone,
        telephone_of (html_parser markup) = Some telephone /\
        PyStr.trim_of telephone (phone site)).
Proof.
  intros Hfetch.
  rewrite (get_site_instance_fetched _ _ _ _ Hfetch).
  split.
  - intros n c l r p t Hadr Hhead Hparts Hphone.
    unfold address_zipcode_of. rewrite Hhead, Hadr, Hparts, Hphone.
    eexists. split; [reflexivity|]. simpl. split; [reflexivity|].
    apply strip_spec.
  - intros site. simpl.
    destruct (header_of (html_parser markup)) as [[n c]|]; [|discriminate].
    destruct (address_zipcode_of (html_parser markup)) as [[a z]|]; [|discriminate].
    destruct (telephone_of (html_parser markup)) as [t|]; [|discriminate].
    intros [= <-]. exists t. simpl. split; [reflexivity|].
    apply strip_spec.
Qed.

End SiteFacts.

Lemma locality_and_region_are_not_trimmed :
  let page :=
    Fixtures.detail_page (Some (" Houghton ", "MI ", "49931 ")) "(906) 482-0984" in
  exists site w1,
    get_site_instance (Fixtures.parse_as page) Fixtures.isro_url
      (Fixtures.cached Fixtures.isro_url) = (Ok site, w1) /\
    address site = " Houghton , MI " /\
    zipcode site = "49931" /\
    address site <> PyStr.strip " Houghton " ++ ", " ++ PyStr.strip "MI ".
Proof.
  simpl. eexists. eexists. split; [reflexivity|].
  simpl. repeat split. discriminate.
Qed.

Lemma absent_address_gives_sentinels_witness :
  exists site,
    get_site_instance
      (Fixtures.parse_as (Fixtures.detail_page None " (906) 482-0984 "))
      Fixtures.isro_url (Fixtures.cached Fixtures.isro_url)
    = (Ok site, add_line "Using Cache" (Fixtures.cached Fixtures.isro_url)) /\
    address site = "No address" /\ zipcode site = "No zipcode" /\
    name site = "Isle Royale" /\ category site = "National Park" /\
    PyStr.trim_of " (906) 482-0984 " (phone site).
Proof.
  apply (absent_address_gives_sentinels
           (Fixtures.parse_as (Fixtures.detail_page None " (906) 482-0984 "))
           Fixtures.isro_url (Fixtures.cached Fixtures.isro_url)
           "<!doctype html>");
    reflexivity.
Defined.

Lemma address_block_fields_witness :
  (exists site,
      get_site_instance
        (Fixtures.parse_as
           (Fixtures.detail_page (Some ("Houghton", "MI", "49931  "))
              "(906) 482-0984"))
        Fixtures.isro_url (Fixtures.cached Fixtures.isro_url)
      = (Ok site, add_line "Using Cache" (Fixtures.cached Fixtures.isro_url)) /\
      address site = "Houghton, MI" /\
      PyStr.trim_of "49931  " (zipcode site)) /\
  (exists telephone,
      telephone_of
        (Fixtures.parse_as
           (Fixtures.detail_page (Some ("Houghton", "MI", "49931  "))
              "(906) 482-0984") "<!doctype html>") = Some telephone /\
      PyStr.trim_of telephone "(906) 482-0984").
Proof.
  assert (Hfetch :
    make_request_with_cache Fixtures.isro_url (Fixtures.cached Fixtures.isro_url)
    = (Ok (JStr "<!doctype html>"),
       add_line "Using Cache" (Fixtures.cached Fixtures.isro_url)))
    by reflexivity.
  split.
  - apply (proj1 (address_block_fields
             (Fixtures.parse_as
                (Fixtures.detail_page (Some ("Houghton", "MI", "49931  "))
                   "(906) 482-0984"))
             _ _ _ _ Hfetch)
             "Isle Royale" "National Park" "Houghton" "MI" "49931  "
             "(906) 482-0984");
      reflexivity.
  - apply (proj2 (address_block_fields
             (Fixtures.parse_as
                (Fixtures.detail_page (Some ("Houghton", "MI", "49931  "))
                   "(906) 482-0984"))
             _ _ _ _ Hfetch)
             {| category := "National Park"; name := "Isle Royale";
                address := "Houghton, MI"; zipcode := "49931";
                phone := "(906) 482-0984" |}).
    reflexivity.
Defined.

(** ** The state index *)

Section IndexFacts.

Variable html_parser : string -> node.

Lemma state_entry_of state_info e index w :
  entry_of state_info = Some e ->
  state_entry index state_info w = (Ok (add_entry index e), w).
Proof.
  unfold entry_of, state_entry, subscript_tag, bind, dot, ret, raise, add_entry.
  destruct (Soup.find "a" [] state_info) as [state_tag|]; [|discriminate].
  destruct (Soup.attr_value state_tag "href") as [href|]; [|discriminate].
  destruct (Soup.node_string state_tag) as [state|]; [|discriminate].
  now intros [= <-].
Qed.

Lemma state_loop_entries state_list entries index w :
  entries_of state_list = Some entries ->
  state_loop state_list index w = (Ok (fold_left add_entry entries index), w).
Proof.
  revert entries index.
  induction state_list as [|state_info rest IH]; intros entries index; simpl.
  - now intros [= <-].
  - destruct (entry_of state_info) as [e|] eqn:He; [|discriminate].
    destruct (entries_of rest) as [es|]; [|discriminate].
    intros [= <-]. unfold bind.
    rewrite (state_entry_of _ _ _ _ He). simpl. now apply IH.
Qed.

(** Entries that do not name a key leave its value alone. *)
Lemma fold_add_entry_other entries index k :
  ~ In k (map (fun e => PyStr.lower (fst e)) entries) ->
  dict_get (fold_left add_entry entries index) k = dict_get index k.
Proof.
  revert index. induction entries as [|e rest IH]; intros index Hnot; simpl.
  - reflexivity.
  - rewrite IH.
    + unfold add_entry. apply dict_get_set_other.
      intros ->. apply Hnot. now left.
    + intros Hin. apply Hnot. now right.
Qed.

(** The last entry of a name decides its value. *)
Lemma fold_add_entry_last before state href after index :
  ~ In (PyStr.lower state) (map (fun e => PyStr.lower (fst e)) after) ->
  dict_get (fold_left add_entry (before ++ (state, href) :: after)%list index)
    (PyStr.lower state)
  = Some (BASE_URL ++ href).
Proof.
  intros Hnot. rewrite fold_left_app. simpl.
  rewrite fold_add_entry_other by exact Hnot.
  unfold add_entry at 1. simpl. apply dict_get_set_same.
Qed.

(** C8, as the code has it. For the entries (state, href) of the
    navigation widget of the fetched homepage, the index maps the
    lower-cased state name to the base origin followed by the href as
    the page has it, the last entry of a name deciding; the entry
    [("Michigan", "/state/mi/index.htm")] gives
    ["https://www.nps.gov/state/mi/index.htm"] under ["michigan"]. *)
Theorem state_index_of_entries w markup w1 widget entries :
  make_request_with_cache "https://www.nps.gov/index.htm" w
    = (Ok (JStr markup), w1) ->
  widget_of (html_parser markup) = Some widget ->
  entries_of (Soup.find_all "li" widget) = Some entries ->
  exists index,
    build_state_url_dict html_parser w = (Ok index, w1) /\
    (forall before state href after,
        entries = (before ++ (state, href) :: after)%list ->
        ~ In (PyStr.lower state) (map (fun e => PyStr.lower (fst e)) after) ->
        dict_get index (PyStr.lower state) = Some (BASE_URL ++ href)) /\
    (forall before after,
        entries = (before ++ ("Michigan", "/state/mi/index.htm") :: after)%list ->
        ~ In "michigan" (map (fun e => PyStr.lower (fst e)) after) ->
        dict_get index "michigan"
        = Some "https://www.nps.gov/state/mi/index.htm").
Proof.
  intros Hfetch Hwidget Hentries.
  exists (fold_left add_entry entries []).
  split; [|split].
  - unfold build_state_url_dict, bind. rewrite Hfetch.
    unfold BeautifulSoup, ret. unfold widget_of in Hwidget.
    rewrite Hwidget. unfold dot, ret.
    now apply state_loop_entries.
  - intros before state href after -> Hnot.
    now apply fold_add_entry_last.
  - intros before after -> Hnot.
    apply (fold_add_entry_last before "Michigan" "/state/mi/index.htm" after []).
    exact Hnot.
Qed.

End IndexFacts.

Lemma state_index_of_entries_witness :
  exists index,
    build_state_url_dict
      (Fixtures.parse_as
         (Fixtures.homepage
            [("Alabama", "/state/al/index.htm");
             ("Michigan", "/state/mi/index.htm");
             ("Wyoming", "/state/wy/index.htm")]))
      (Fixtures.cached Fixtures.home_url)
    = (Ok index, add_line "Using Cache" (Fixtures.cached Fixtures.home_url)) /\
    dict_get index "michigan" = Some "https://www.nps.gov/state/mi/index.htm".
Proof.
  destruct (state_index_of_entries
              (Fixtures.parse_as
                 (Fixtures.homepage
                    [("Alabama", "/state/al/index.htm");
                     ("Michigan", "/state/mi/index.htm");
                     ("Wyoming", "/state/wy/index.htm")]))
              (Fixtures.cached Fixtures.home_url) "<!doctype html>"
              (add_line "Using Cache" (Fixtures.cached Fixtures.home_url))
              (NTag "div"
                 [("class", "SearchBar-keywordSearch input-group input-group-lg")]
                 [NTag "ul" [("class", "dropdown-menu")]
                    (map Fixtures.state_item
                       [("Alabama", "/state/al/index.htm");
                        ("Michigan", "/state/mi/index.htm");
                        ("Wyoming", "/state/wy/index.htm")])])
              [("Alabama", "/state/al/index.htm");
               ("Michigan", "/state/mi/index.htm");
               ("Wyoming", "/state/wy/index.htm")]
              eq_refl eq_refl eq_refl)
    as [index [Hrun [_ Hmichigan]]].
  exists index. split; [exact Hrun|].
  apply (Hmichigan [("Alabama", "/state/al/index.htm")]
           [("Wyoming", "/state/wy/index.htm")] eq_refl).
  simpl. intros [H|[]]. discriminate H.
Defined.

(** An href that is already absolute gets the base origin in front all
    the same. *)
Lemma absolute_href_is_prefixed :
  let href := "https://www.nps.gov/state/mi/index.htm" in
  exists index w1,
    build_state_url_dict
      (Fixtures.parse_as (Fixtures.homepage [("Michigan", href)]))
      (Fixtures.cached Fixtures.home_url) = (Ok index, w1) /\
    dict_get index "michigan"
    = Some "https://www.nps.govhttps://www.nps.gov/state/mi/index.htm" /\
    dict_get index "michigan" <> Some (resolve_url href).
Proof.
  simpl. eexists. eexists. split; [reflexivity|].
  split; [reflexivity|discriminate].
Qed.

(** ** Rendering the places *)

Lemma add_lines_fields lines w :
  stdout (add_lines lines w) = (stdout w ++ lines)%list /\
  cache_file (add_lines lines w) = cache_file w /\
  requested (add_lines lines w) = requested w /\
  written (add_lines lines w) = written w.
Proof.
  revert w. induction lines as [|line rest IH]; intros w; simpl.
  - now rewrite app_nil_r.
  - destruct (IH (add_line line w)) as [Hout [Hfile [Hreq Hwr]]].
    unfold add_lines in *. simpl.
    rewrite Hout, Hfile, Hreq, Hwr. simpl.
    now rewrite <- app_assoc.
Qed.

Section PlacesFacts.

Variable py_repr : json -> string.

(** An empty field is shown by its placeholder, any other as it is. *)
Lemma or_placeholder_str field placeholder w :
  or_placeholder (JStr field) placeholder w
  = (Ok (JStr (or_literal field placeholder)), w).
Proof. destruct field; reflexivity. Qed.

Lemma print_place_typed result p w :
  place_of result = Some p ->
  print_place py_repr result w = (Ok tt, add_line (render_line p) w).
Proof.
  unfold place_of.
  destruct result as [ | | | | | |entry]; try discriminate.
  destruct (dict_get entry "name") as [[ | | | |n| | ]|] eqn:Hname;
    try discriminate.
  destruct (dict_get entry "fields") as [[ | | | | | |fields]|] eqn:Hfields;
    try discriminate.
  destruct (dict_get fields "group_sic_code_name") as [[ | | | |c| | ]|] eqn:Hc;
    try discriminate.
  destruct (dict_get fields "address") as [[ | | | |a| | ]|] eqn:Ha;
    try discriminate.
  destruct (dict_get fields "city") as [[ | | | |y| | ]|] eqn:Hy;
    try discriminate.
  intros [= <-].
  unfold print_place, bind, subscript, getitem.
  rewrite Hname, Hfields. unfold ret. rewrite Hc, Ha, Hy.
  rewrite !or_placeholder_str. reflexivity.
Qed.

Lemma print_places_typed results ps w :
  places_of results = Some ps ->
  print_places py_repr results w = (Ok tt, add_lines (render_places ps) w).
Proof.
  revert ps w. induction results as [|result rest IH]; intros ps w; simpl.
  - now intros [= <-].
  - destruct (place_of result) as [p|] eqn:Hp; [|discriminate].
    destruct (places_of rest) as [ps'|]; [|discriminate].
    intros [= <-]. unfold bind.
    rewrite (print_place_typed _ _ _ Hp). simpl.
    now rewrite (IH ps').
Qed.

(** C9. For a places result whose entries have a name and the three
    fields as strings, [print_nearby_places] prints, entry by entry,
    the line ["- {name} ({category}): {address}, {city}"], an empty
    category, address or city being shown as ["no category"],
    ["no address"] or ["no city"] and any other field as it is; it
    returns, and nothing but standard output changes. *)
Theorem places_are_rendered members results ps w :
  dict_get members "searchResults" = Some (JArr results) ->
  places_of results = Some ps ->
  exists w1,
    print_nearby_places py_repr (JObj members) w = (Ok tt, w1) /\
    stdout w1 = (stdout w ++ render_places ps)%list /\
    cache_file w1 = cache_file w /\ requested w1 = requested w /\
    written w1 = written w.
Proof.
  intros Hresults Hps.
  exists (add_lines (render_places ps) w).
  split; [|apply add_lines_fields].
  unfold print_nearby_places, bind, subscript, getitem.
  rewrite Hresults. unfold ret, py_iter.
  now apply print_places_typed.
Qed.

End PlacesFacts.

Lemma places_are_rendered_witness :
  exists w1,
    print_nearby_places Fixtures.no_repr Fixtures.places_result
      (Fixtures.fresh Fixtures.dead_net) = (Ok tt, w1) /\
    stdout w1 =
      ["- Keweenaw Coffee (Coffee Shops): 326 Shelden Ave, Houghton";
       "- Portage Lake (no category): no address, no city"] /\
    cache_file w1 = NoFile /\ requested w1 = [] /\ written w1 = [].
Proof.
  apply (places_are_rendered Fixtures.no_repr
           [("resultsCount", JInt 2);
            ("searchResults",
             JArr [Fixtures.place_entry "Keweenaw Coffee" "Coffee Shops"
                     "326 Shelden Ave" "Houghton";
                   Fixtures.place_entry "Portage Lake" "" "" ""])]
           [Fixtures.place_entry "Keweenaw Coffee" "Coffee Shops"
              "326 Shelden Ave" "Houghton";
            Fixtures.place_entry "Portage Lake" "" "" ""]
           [{| place_name := "Keweenaw Coffee"; place_category := "Coffee Shops";
               place_address := "326 Shelden Ave"; place_city := "Houghton" |};
            {| place_name := "Portage Lake"; place_category := "";
               place_address := ""; place_city := "" |}]
           (Fixtures.fresh Fixtures.dead_net));
    reflexivity.
Defined.

(** ** The cache on examples *)

Lemma cache_idempotence_witness :
  exists w2,
    fetch_or_get Text Fixtures.home_url
      (put_file
         (JObj [(Fixtures.home_url,
                 JStr "<html>https://www.nps.gov/index.htm</html>")])
         (add_request Fixtures.home_url
            (add_line "Fetching" (Fixtures.fresh Fixtures.echo_net))))
    = (Ok (JStr "<html>https://www.nps.gov/index.htm</html>"), w2) /\
    requested w2 = [Fixtures.home_url] /\
    (requested w2 = [] \/ requested w2 = [Fixtures.home_url]) /\
    cache_file w2 =
      Document (JObj [(Fixtures.home_url,
                       JStr "<html>https://www.nps.gov/index.htm</html>")]) /\
    written w2 =
      [JObj [(Fixtures.home_url,
              JStr "<html>https://www.nps.gov/index.htm</html>")]].
Proof.
  apply (cache_idempotence Text Fixtures.home_url
           (Fixtures.fresh Fixtures.echo_net)).
  reflexivity.
Defined.

Lemma stored_value_is_kept_witness :
  stored
    (run_calls [(Text, Fixtures.isro_url); (Json, Fixtures.home_url);
                (Json, MAP_URL)]
       (Fixtures.with_file
          (Document (JObj [(Fixtures.home_url, JStr "<!doctype html>")]))
          Fixtures.echo_net))
    Fixtures.home_url = Some (JStr "<!doctype html>") /\
  forall kind,
    fst (fetch_or_get kind Fixtures.home_url
           (run_calls [(Text, Fixtures.isro_url); (Json, Fixtures.home_url);
                       (Json, MAP_URL)]
              (Fixtures.with_file
                 (Document (JObj [(Fixtures.home_url, JStr "<!doctype html>")]))
                 Fixtures.echo_net)))
    = Ok (JStr "<!doctype html>").
Proof.
  apply stored_value_is_kept. reflexivity.
Defined.

Lemma hit_writes_nothing_witness :
  (fst (fetch_or_get Json Fixtures.home_url (Fixtures.cached Fixtures.home_url))
     = Ok (JStr "<!doctype html>") /\
   cache_file
     (snd (fetch_or_get Json Fixtures.home_url (Fixtures.cached Fixtures.home_url)))
     = cache_file (Fixtures.cached Fixtures.home_url) /\
   written
     (snd (fetch_or_get Json Fixtures.home_url (Fixtures.cached Fixtures.home_url)))
     = written (Fixtures.cached Fixtures.home_url) /\
   requested
     (snd (fetch_or_get Json Fixtures.home_url (Fixtures.cached Fixtures.home_url)))
     = requested (Fixtures.cached Fixtures.home_url)) /\
  (exists d,
      loaded_store (Fixtures.fresh Fixtures.echo_net) = Some d /\
      dict_get d Fixtures.isro_url = None).
Proof.
  split.
  - apply (proj1 (hit_writes_nothing Json Fixtures.home_url
                    (Fixtures.cached Fixtures.home_url))).
    reflexivity.
  - apply (proj2 (hit_writes_nothing Text Fixtures.isro_url
                    (Fixtures.fresh Fixtures.echo_net))).
    simpl. discriminate.
Defined.

(** * Further properties *)

(** ** The cache, call by call *)

(** What one call does to the world: nothing but a printed line; or a
    request that failed; or a request and the saving of the store with
    the new key. *)
Lemma fetch_or_get_effects kind key w :
  internet (snd (fetch_or_get kind key w)) = internet w /\
  ((requested (snd (fetch_or_get kind key w)) = requested w /\
    written (snd (fetch_or_get kind key w)) = written w /\
    cache_file (snd (fetch_or_get kind key w)) = cache_file w) \/
   (requested (snd (fetch_or_get kind key w)) = (requested w ++ [key])%list /\
    written (snd (fetch_or_get kind key w)) = written w /\
    cache_file (snd (fetch_or_get kind key w)) = cache_file w /\
    exists e, fst (fetch_or_get kind key w) = Raise e) \/
   (requested (snd (fetch_or_get kind key w)) = (requested w ++ [key])%list /\
    exists d v,
      loaded_store w = Some d /\ dict_get d key = None /\
      fst (fetch_or_get kind key w) = Ok v /\
      written (snd (fetch_or_get kind key w))
        = (written w ++ [JObj (dict_set d key v)])%list /\
      cache_file (snd (fetch_or_get kind key w))
        = Document (JObj (dict_set d key v)))).
Proof.
  pose proof (fetch_or_get_cases kind key w) as Hcase.
  inversion Hcase as [ Hd HH | d v0 Hd Hv HH | d Hd Hv Hr HH
                     | d r Hd Hv Hr Hkind Hj HH
                     | d r value Hd Hv Hr Hvalue HH ]; simpl.
  - auto.
  - auto.
  - split; [reflexivity|]. right; left. repeat split. eauto.
  - split; [reflexivity|]. right; left. repeat split. eauto.
  - split; [reflexivity|]. right; right. split; [reflexivity|].
    exists d, value. auto.
Qed.

(** X1. A call that raises leaves the cache file as it was and saves
    nothing: every key keeps the value it had. *)
Theorem raising_call_writes_nothing kind key w e :
  fst (fetch_or_get kind key w) = Raise e ->
  cache_file (snd (fetch_or_get kind key w)) = cache_file w /\
  written (snd (fetch_or_get kind key w)) = written w /\
  forall k, stored (snd (fetch_or_get kind key w)) k = stored w k.
Proof.
  intros Hraise.
  pose proof (fetch_or_get_cases kind key w) as Hcase.
  inversion Hcase as [ Hd HH | d v0 Hd Hv HH | d Hd Hv Hr HH
                     | d r Hd Hv Hr Hkind Hj HH
                     | d r value Hd Hv Hr Hvalue HH ];
    rewrite <- HH in Hraise; simpl in Hraise; try discriminate;
    simpl; repeat split; intros k; unfold stored;
    now rewrite ?loaded_store_add_request, ?loaded_store_add_line.
Qed.

Lemma raising_call_writes_nothing_witness :
  cache_file (snd (fetch_or_get Json Fixtures.isro_url
                     (Fixtures.cached Fixtures.home_url)))
    = cache_file (Fixtures.cached Fixtures.home_url) /\
  written (snd (fetch_or_get Json Fixtures.isro_url
                  (Fixtures.cached Fixtures.home_url)))
    = written (Fixtures.cached Fixtures.home_url) /\
  forall k,
    stored (snd (fetch_or_get Json Fixtures.isro_url
                   (Fixtures.cached Fixtures.home_url))) k
    = stored (Fixtures.cached Fixtures.home_url) k.
Proof.
  apply (raising_call_writes_nothing Json Fixtures.isro_url
           (Fixtures.cached Fixtures.home_url) RequestException).
  reflexivity.
Defined.

(** A value that a call returned is returned again by either kind of
    call, from the cache. *)
Lemma fetch_or_get_again kind kind' key w v w1 :
  fetch_or_get kind key w = (Ok v, w1) ->
  fetch_or_get kind' key w1 = (Ok v, add_line "Using Cache" w1).
Proof.
  intros Hcall.
  pose proof (fetch_or_get_cases kind key w) as Hcase.
  rewrite Hcall in Hcase.
  inversion Hcase as [ | d v0 Hd Hv | | | d r value Hd Hv Hr Hvalue ]; subst.
  - apply fetch_or_get_hit with d; [now rewrite loaded_store_add_line | exact Hv].
  - apply fetch_or_get_hit with (dict_set d key v);
      [apply loaded_store_put_file | apply dict_get_set_same].
Qed.

(** The value a call returns is the value the store then holds. *)
Lemma returned_value_is_stored kind key w v w1 :
  fetch_or_get kind key w = (Ok v, w1) -> stored w1 key = Some v.
Proof.
  intros Hcall.
  pose proof (fetch_or_get_cases kind key w) as Hcase.
  rewrite Hcall in Hcase.
  inversion Hcase as [ | d v0 Hd Hv | | | d r value Hd Hv Hr Hvalue ]; subst;
    unfold stored.
  - now rewrite loaded_store_add_line, Hd.
  - rewrite loaded_store_put_file. apply dict_get_set_same.
Qed.

(** X2. The kind of value is no part of the key: once the text of a
    page is cached under a URL, the JSON call for that URL returns the
    text, a string, from the cache, and not the parsed body. *)
Theorem text_entry_answers_json_call w d key r :
  loaded_store w = Some d -> dict_get d key = None ->
  internet w (requested w) key = Some r ->
  map_make_request_with_cache key (snd (make_request_with_cache key w))
  = (Ok (JStr (text r)),
     add_line "Using Cache" (snd (make_request_with_cache key w))).
Proof.
  intros Hd Hv Hr.
  apply (fetch_or_get_again Text Json key w).
  simpl. rewrite (make_request_with_cache_miss w d key r Hd Hv Hr).
  reflexivity.
Qed.

Lemma text_entry_answers_json_call_witness :
  map_make_request_with_cache MAP_URL
    (snd (make_request_with_cache MAP_URL (Fixtures.fresh Fixtures.echo_net)))
  = (Ok (JStr "<html>http://www.mapquestapi.com/search/v2/radius</html>"),
     add_line "Using Cache"
       (snd (make_request_with_cache MAP_URL (Fixtures.fresh Fixtures.echo_net)))).
Proof.
  apply (text_entry_answers_json_call (Fixtures.fresh Fixtures.echo_net) []
           MAP_URL
           {| text := "<html>http://www.mapquestapi.com/search/v2/radius</html>";
              json_body := Some (JObj [("searchResults", JArr [])]) |});
    reflexivity.
Defined.

(** X3. What a call prints: nothing when the loaded document is no
    dictionary; otherwise one line, ["Using Cache"] when the key is in
    the store and ["Fetching"] when it is not, whether or not the call
    goes on to return. *)
Theorem one_line_per_call kind key w :
  stdout (snd (fetch_or_get kind key w)) =
    (stdout w ++
     match loaded_store w with
     | None => []
     | Some d => if dict_mem d key then ["Using Cache"] else ["Fetching"]
     end)%list.
Proof.
  pose proof (fetch_or_get_cases kind key w) as Hcase.
  inversion Hcase as [ Hd HH | d v0 Hd Hv HH | d Hd Hv Hr HH
                     | d r Hd Hv Hr Hkind Hj HH
                     | d r value Hd Hv Hr Hvalue HH ];
    simpl; rewrite Hd.
  - now rewrite app_nil_r.
  - assert (Hm : dict_mem d key = true) by (apply dict_mem_true; eauto).
    now rewrite Hm.
  - apply dict_mem_false in Hv. now rewrite Hv.
  - apply dict_mem_false in Hv. now rewrite Hv.
  - apply dict_mem_false in Hv. now rewrite Hv.
Qed.

(** ** The cache over a run *)

Lemma run_calls_internet calls w : internet (run_calls calls w) = internet w.
Proof.
  revert w. induction calls as [|[kind key] rest IH]; intros w; simpl.
  - reflexivity.
  - rewrite IH. apply fetch_or_get_effects.
Qed.

Lemma stored_put_file d k w : stored (put_file (JObj d) w) k = dict_get d k.
Proof. reflexivity. Qed.

(** Where the network answers, a call keeps this invariant: no URL was
    requested twice, and every URL that was requested is in the store. *)
Lemma requested_once_step kind key w :
  answering w ->
  NoDup (requested w) ->
  (forall u, In u (requested w) -> stored w u <> None) ->
  NoDup (requested (snd (fetch_or_get kind key w))) /\
  (forall u, In u (requested (snd (fetch_or_get kind key w))) ->
             stored (snd (fetch_or_get kind key w)) u <> None).
Proof.
  intros Hnet Hnd Hst.
  pose proof (fetch_or_get_cases kind key w) as Hcase.
  inversion Hcase as [ Hd HH | d v0 Hd Hv HH | d Hd Hv Hr HH
                     | d r Hd Hv Hr Hkind Hj HH
                     | d r value Hd Hv Hr Hvalue HH ]; simpl.
  - auto.
  - split; [exact Hnd|]. intros u Hu. unfold stored.
    rewrite loaded_store_add_line. now apply Hst.
  - destruct (Hnet (requested w) key) as [r [Hr' _]]. congruence.
  - destruct (Hnet (requested w) key) as [r' [Hr' Hj']]. congruence.
  - assert (Hfresh : ~ In key (requested w)).
    { intros Hin. apply (Hst key Hin). unfold stored. now rewrite Hd. }
    split.
    + apply NoDup_app; [exact Hnd|repeat constructor; intros []|].
      intros u Hu [<-|[]]. contradiction.
    + intros u Hu. rewrite stored_put_file.
      apply in_app_or in Hu. destruct Hu as [Hu|[<-|[]]].
      * rewrite dict_get_set_other.
        -- specialize (Hst u Hu). unfold stored in Hst. now rewrite Hd in Hst.
        -- intros ->. contradiction.
      * rewrite dict_get_set_same. discriminate.
Qed.

Lemma answering_step kind key w :
  answering w -> answering (snd (fetch_or_get kind key w)).
Proof.
  unfold answering. intros Hnet history url.
  destruct (fetch_or_get_effects kind key w) as [-> _]. apply Hnet.
Qed.

Lemma requested_once_run calls w :
  answering w ->
  NoDup (requested w) ->
  (forall u, In u (requested w) -> stored w u <> None) ->
  NoDup (requested (run_calls calls w)).
Proof.
  revert w. induction calls as [|[kind key] rest IH]; intros w Hnet Hnd Hst; simpl.
  - exact Hnd.
  - destruct (requested_once_step kind key w Hnet Hnd Hst) as [Hnd' Hst'].
    apply IH; [now apply answering_step|exact Hnd'|exact Hst'].
Qed.

Lemma requested_from_calls calls w u :
  In u (requested (run_calls calls w)) ->
  In u (requested w) \/ In u (map snd calls).
Proof.
  revert w. induction calls as [|[kind key] rest IH]; intros w; simpl.
  - auto.
  - intros Hu. destruct (IH _ Hu) as [Hin|Hin]; [|auto].
    destruct (fetch_or_get_effects kind key w)
      as [_ [[Hr _]|[[Hr _]|[Hr _]]]]; rewrite Hr in Hin; auto;
      apply in_app_or in Hin; destruct Hin as [Hin|[<-|[]]]; auto.
Qed.

(** X4. Starting with no request made, over a network that answers
    every request with a JSON body, no URL is requested twice in any
    sequence of calls, and every URL requested is the key of one of the
    calls. *)
Theorem no_url_requested_twice calls w :
  answering w -> requested w = [] ->
  NoDup (requested (run_calls calls w)) /\
  forall u, In u (requested (run_calls calls w)) -> In u (map snd calls).
Proof.
  intros Hnet Hnone. split.
  - apply requested_once_run; [exact Hnet| |]; rewrite Hnone.
    + constructor.
    + intros u [].
  - intros u Hu. destruct (requested_from_calls calls w u Hu) as [Hin|Hin].
    + rewrite Hnone in Hin. destruct Hin.
    + exact Hin.
Qed.

Lemma echo_net_answers : answering (Fixtures.fresh Fixtures.echo_net).
Proof.
  intros history url. eexists. split; [reflexivity|discriminate].
Qed.

Lemma no_url_requested_twice_witness :
  NoDup (requested
           (run_calls [(Text, Fixtures.home_url); (Json, Fixtures.home_url);
                       (Text, Fixtures.isro_url); (Text, Fixtures.home_url)]
              (Fixtures.fresh Fixtures.echo_net))) /\
  forall u,
    In u (requested
            (run_calls [(Text, Fixtures.home_url); (Json, Fixtures.home_url);
                        (Text, Fixtures.isro_url); (Text, Fixtures.home_url)]
               (Fixtures.fresh Fixtures.echo_net))) ->
    In u (map snd [(Text, Fixtures.home_url); (Json, Fixtures.home_url);
                   (Text, Fixtures.isro_url); (Text, Fixtures.home_url)]).
Proof.
  apply no_url_requested_twice; [exact echo_net_answers|reflexivity].
Defined.

(** X5. In any sequence of calls there are no more saves than requests
    and no more requests than calls. *)
Theorem saves_le_requests_le_calls calls w :
  (List.length (written (run_calls calls w)) - List.length (written w)
   <= List.length (requested (run_calls calls w)) - List.length (requested w))%nat /\
  (List.length (requested (run_calls calls w))
   <= List.length (requested w) + List.length calls)%nat /\
  (List.length (written w) <= List.length (written (run_calls calls w)))%nat /\
  (List.length (requested w) <= List.length (requested (run_calls calls w)))%nat.
Proof.
  revert w. induction calls as [|[kind key] rest IH]; intros w; simpl.
  - lia.
  - specialize (IH (snd (fetch_or_get kind key w))).
    destruct (fetch_or_get_effects kind key w)
      as [_ [[Hr [Hw _]]|[[Hr [Hw _]]|[Hr [d [v [_ [_ [_ [Hw _]]]]]]]]]];
      rewrite Hr, Hw in IH; rewrite ?length_app in IH; simpl in IH; lia.
Qed.

(** ** The key builder and the places request *)

(** X6. The key shows values as they are formatted and keeps no trace of
    their type: a mapping and the same mapping with every number
    written out as a string have the same key. *)
Theorem key_ignores_value_type url (P : dict param_value) :
  construct_unique_key url (stringified P) = construct_unique_key url P /\
  (forall k n,
      construct_unique_key url [(k, PInt n)]
      = construct_unique_key url [(k, PStr (PyStr.of_int n))]).
Proof.
  split.
  - unfold construct_unique_key, stringified. rewrite map_map.
    do 4 f_equal.
  - intros k n. reflexivity.
Qed.

Lemma string_append_assoc (a b c : string) : (a ++ b) ++ c = a ++ b ++ c.
Proof. induction a as [|x a IH]; simpl; [reflexivity|]. now rewrite IH. Qed.

(** X7. Nothing is escaped: a value that contains ["&"] gives the key of
    the mapping in which the text after the ["&"] is a parameter of its
    own. *)
Theorem unescaped_value_collides url k1 v1 k2 v2 :
  String.leb (k1 ++ "=" ++ v1) (k2 ++ "=" ++ v2) = true ->
  construct_unique_key url [(k1, PStr (v1 ++ "&" ++ k2 ++ "=" ++ v2))]
  = construct_unique_key url [(k1, PStr v1); (k2, PStr v2)].
Proof.
  intros Hle. unfold construct_unique_key, PyStr.sort, param_string.
  simpl in *. rewrite Hle. simpl. do 2 f_equal.
  rewrite !string_append_assoc. reflexivity.
Qed.

Lemma unescaped_value_collides_witness :
  construct_unique_key MAP_URL [("origin", PStr "49931&radius=10")]
  = construct_unique_key MAP_URL [("origin", PStr "49931"); ("radius", PStr "10")].
Proof.
  apply (unescaped_value_collides MAP_URL "origin" "49931" "radius" "10").
  reflexivity.
Defined.

(** Whatever the zip code of the site and the API key, the places of a
    site are asked for under the base address followed by the six
    parameters in this order: ambiguities, key, maxMatches, origin,
    outFormat, radius. *)
Lemma get_nearby_places_url consumer_key site_object w :
  get_nearby_places consumer_key site_object w
  = map_make_request_with_cache
      (places_url consumer_key (zipcode site_object)) w.
Proof. unfold get_nearby_places. reflexivity. Qed.

(** X8. The places of a site are cached under an address that names
    the API key and the zip code of the site and nothing else of the
    site: once the lookup for one site has returned, the address is a
    key of the cache file, and the lookup for any site with the same
    zip code returns the same places from the cache. *)
Theorem same_zipcode_same_places consumer_key site1 site2 w places w1 :
  zipcode site1 = zipcode site2 ->
  get_nearby_places consumer_key site1 w = (Ok places, w1) ->
  stored w1 (places_url consumer_key (zipcode site1)) = Some places /\
  get_nearby_places consumer_key site2 w1
  = (Ok places, add_line "Using Cache" w1).
Proof.
  intros Hzip Hfirst.
  rewrite get_nearby_places_url in *. rewrite <- Hzip. split.
  - apply (returned_value_is_stored Json _ _ _ _ Hfirst).
  - apply (fetch_or_get_again Json Json _ _ _ _ Hfirst).
Qed.

Lemma same_zipcode_same_places_witness :
  stored
    (snd (get_nearby_places "KEY"
            {| category := "National Park"; name := "Isle Royale";
               address := "Houghton, MI"; zipcode := "49931";
               phone := "(906) 482-0984" |}
            (Fixtures.fresh Fixtures.echo_net)))
    (places_url "KEY" "49931")
  = Some (JObj [("searchResults", JArr [])]) /\
  get_nearby_places "KEY"
    {| category := "National Historical Park"; name := "Keweenaw";
       address := "Calumet, MI"; zipcode := "49931";
       phone := "(906) 337-3168" |}
    (snd (get_nearby_places "KEY"
            {| category := "National Park"; name := "Isle Royale";
               address := "Houghton, MI"; zipcode := "49931";
               phone := "(906) 482-0984" |}
            (Fixtures.fresh Fixtures.echo_net)))
  = (Ok (JObj [("searchResults", JArr [])]),
     add_line "Using Cache"
       (snd (get_nearby_places "KEY"
               {| category := "National Park"; name := "Isle Royale";
                  address := "Houghton, MI"; zipcode := "49931";
                  phone := "(906) 482-0984" |}
               (Fixtures.fresh Fixtures.echo_net)))).
Proof.
  apply (same_zipcode_same_places "KEY"
           {| category := "National Park"; name := "Isle Royale";
              address := "Houghton, MI"; zipcode := "49931";
              phone := "(906) 482-0984" |}
           {| category := "National Historical Park"; name := "Keweenaw";
              address := "Calumet, MI"; zipcode := "49931";
              phone := "(906) 337-3168" |}
           (Fixtures.fresh Fixtures.echo_net));
    reflexivity.
Defined.

(** ** Printing the places: what goes wrong *)

Section PlacesErrors.

Variable py_repr : json -> string.

Lemma print_places_app good rest w :
  forall ps, places_of good = Some ps ->
  print_places py_repr (good ++ rest)%list w
  = print_places py_repr rest (add_lines (render_places ps) w).
Proof.
  revert w. induction good as [|result good IH]; intros w ps; simpl.
  - now intros [= <-].
  - destruct (place_of result) as [p|] eqn:Hp; [|discriminate].
    destruct (places_of good) as [ps'|] eqn:Hps; [|discriminate].
    intros [= <-]. unfold bind.
    rewrite (print_place_typed py_repr _ _ _ Hp). simpl.
    now rewrite (IH _ ps').
Qed.

(** X9. A response without the member ["searchResults"] makes
    [print_nearby_places] raise [KeyError] before it prints anything;
    a response that is no dictionary at all, such as the text of a
    page, makes it raise [TypeError]. *)
Theorem no_search_results_raises map_api_dict w :
  match map_api_dict with
  | JObj members =>
      dict_get members "searchResults" = None ->
      print_nearby_places py_repr map_api_dict w = (Raise KeyError, w)
  | _ => print_nearby_places py_repr map_api_dict w = (Raise TypeError, w)
  end.
Proof.
  destruct map_api_dict; try reflexivity.
  intros Hnone. unfold print_nearby_places, bind, subscript, getitem.
  now rewrite Hnone.
Qed.

(** X10. The lines are printed entry by entry: when an entry has no
    member ["name"], the lines of the entries before it are on the
    output already and the call raises [KeyError]; the entries after it
    are not printed. *)
Theorem lines_before_a_bad_entry_are_printed members good entry rest ps w :
  dict_get members "searchResults" = Some (JArr (good ++ JObj entry :: rest)) ->
  places_of good = Some ps ->
  dict_get entry "name" = None ->
  print_nearby_places py_repr (JObj members) w
  = (Raise KeyError, add_lines (render_places ps) w).
Proof.
  intros Hresults Hgood Hname.
  unfold print_nearby_places, bind, subscript, getitem.
  rewrite Hresults. unfold py_iter. unfold ret. cbv beta iota.
  rewrite (print_places_app _ _ _ _ Hgood). simpl.
  unfold bind, print_place, bind, subscript, getitem. now rewrite Hname.
Qed.

End PlacesErrors.

Lemma no_search_results_raises_witness :
  print_nearby_places Fixtures.no_repr
    (JObj [("resultsCount", JInt 0); ("totalPages", JInt 1)])
    (Fixtures.fresh Fixtures.dead_net)
  = (Raise KeyError, Fixtures.fresh Fixtures.dead_net).
Proof.
  apply (no_search_results_raises Fixtures.no_repr
           (JObj [("resultsCount", JInt 0); ("totalPages", JInt 1)])
           (Fixtures.fresh Fixtures.dead_net)).
  reflexivity.
Defined.

Lemma lines_before_a_bad_entry_are_printed_witness :
  print_nearby_places Fixtures.no_repr
    (JObj [("searchResults",
            JArr [Fixtures.place_entry "Portage Lake" "" "" "";
                  JObj [("fields", JObj [])];
                  Fixtures.place_entry "Keweenaw Coffee" "Coffee Shops"
                    "326 Shelden Ave" "Houghton"])])
    (Fixtures.fresh Fixtures.dead_net)
  = (Raise KeyError,
     add_lines ["- Portage Lake (no category): no address, no city"]
       (Fixtures.fresh Fixtures.dead_net)).
Proof.
  apply (lines_before_a_bad_entry_are_printed Fixtures.no_repr
           [("searchResults",
             JArr [Fixtures.place_entry "Portage Lake" "" "" "";
                   JObj [("fields", JObj [])];
                   Fixtures.place_entry "Keweenaw Coffee" "Coffee Shops"
                     "326 Shelden Ave" "Houghton"])]
           [Fixtures.place_entry "Portage Lake" "" "" ""]
           [("fields", JObj [])]
           [Fixtures.place_entry "Keweenaw Coffee" "Coffee Shops"
              "326 Shelden Ave" "Houghton"]
           [{| place_name := "Portage Lake"; place_category := "";
               place_address := ""; place_city := "" |}]);
    reflexivity.
Defined.

(** ** The site fetcher: its effects and its failures *)

Section SiteEffects.

Variable html_parser : string -> node.

(** Reading the page does nothing to the world: the world after
    [get_site_instance] is the world after its cache call. *)
Lemma get_site_instance_world site_url w :
  snd (get_site_instance html_parser site_url w)
  = snd (make_request_with_cache site_url w).
Proof.
  destruct (make_request_with_cache site_url w) as [[url_text|e] w1] eqn:Hfetch.
  - destruct url_text;
      try (unfold get_site_instance, bind; rewrite Hfetch; reflexivity).
    now rewrite (get_site_instance_fetched _ _ _ _ _ Hfetch).
  - unfold get_site_instance, bind. now rewrite Hfetch.
Qed.

(** X11. A page that cannot be read stays in the cache: when the page
    was fetched and [get_site_instance] raised on it, the next call for
    the same URL takes the page from the cache, requests nothing and
    raises the same exception. *)
Theorem unreadable_page_stays_cached site_url w markup w1 e :
  make_request_with_cache site_url w = (Ok (JStr markup), w1) ->
  fst (get_site_instance html_parser site_url w) = Raise e ->
  get_site_instance html_parser site_url w1
  = (Raise e, add_line "Using Cache" w1) /\
  stored w1 site_url = Some (JStr markup).
Proof.
  intros Hfetch Hraise.
  pose proof (fetch_or_get_again Text Text _ _ _ _ Hfetch) as Hagain.
  simpl in Hagain.
  rewrite (get_site_instance_fetched _ _ _ _ _ Hfetch) in Hraise.
  rewrite (get_site_instance_fetched _ _ _ _ _ Hagain).
  simpl in Hraise. split.
  - now rewrite Hraise.
  - apply (returned_value_is_stored Text _ _ _ _ Hfetch).
Qed.

(** X12. An address block does not suffice: on a fetched page whose
    tree has one, [get_site_instance] raises [AttributeError] when the
    locality, the region or the postal code element is missing, and
    does not fall back on the two sentinels; it raises exactly when
    one of these, the header or the telephone element is missing, and
    it raises nothing but [AttributeError]. *)
Theorem incomplete_address_block_raises site_url w markup w1 :
  make_request_with_cache site_url w = (Ok (JStr markup), w1) ->
  has_address_block (html_parser markup) = true ->
  (address_parts_of (html_parser markup) = None ->
   get_site_instance html_parser site_url w = (Raise AttributeError, w1)) /\
  (get_site_instance html_parser site_url w = (Raise AttributeError, w1) <->
   header_of (html_parser markup) = None \/
   telephone_of (html_parser markup) = None \/
   address_parts_of (html_parser markup) = None) /\
  (forall e,
      fst (get_site_instance html_parser site_url w) = Raise e ->
      e = AttributeError).
Proof.
  intros Hfetch Hadr.
  rewrite (get_site_instance_fetched _ _ _ _ _ Hfetch).
  unfold address_zipcode_of. rewrite Hadr.
  destruct (header_of (html_parser markup)) as [[n c]|];
    destruct (address_parts_of (html_parser markup)) as [[[l r] p]|];
    destruct (telephone_of (html_parser markup)) as [t|]; simpl;
    (split; [|split; [split|]]);
    try reflexivity;
    try discriminate;
    try (intros e [= <-]; reflexivity);
    try (intros e He; discriminate He);
    try (intros _; auto; fail);
    try (intros [H|[H|H]]; discriminate).
Qed.

End SiteEffects.

Lemma unreadable_page_stays_cached_witness :
  get_site_instance (Fixtures.parse_as Pages.incomplete_page) Fixtures.isro_url
    (snd (make_request_with_cache Fixtures.isro_url
            (Fixtures.fresh Fixtures.echo_net)))
  = (Raise AttributeError,
     add_line "Using Cache"
       (snd (make_request_with_cache Fixtures.isro_url
               (Fixtures.fresh Fixtures.echo_net)))) /\
  stored (snd (make_request_with_cache Fixtures.isro_url
                 (Fixtures.fresh Fixtures.echo_net))) Fixtures.isro_url
  = Some (JStr "<html>https://www.nps.gov/isro/index.htm</html>").
Proof.
  apply (unreadable_page_stays_cached
           (Fixtures.parse_as Pages.incomplete_page) Fixtures.isro_url
           (Fixtures.fresh Fixtures.echo_net));
    reflexivity.
Defined.

Lemma incomplete_address_block_raises_witness :
  get_site_instance (Fixtures.parse_as Pages.incomplete_page)
    Fixtures.isro_url (Fixtures.cached Fixtures.isro_url)
  = (Raise AttributeError,
     add_line "Using Cache" (Fixtures.cached Fixtures.isro_url)) /\
  (get_site_instance (Fixtures.parse_as Pages.incomplete_page)
     Fixtures.isro_url (Fixtures.cached Fixtures.isro_url)
   = (Raise AttributeError,
      add_line "Using Cache" (Fixtures.cached Fixtures.isro_url)) <->
   header_of (Fixtures.parse_as Pages.incomplete_page "<!doctype html>") = None \/
   telephone_of (Fixtures.parse_as Pages.incomplete_page "<!doctype html>")
     = None \/
   address_parts_of (Fixtures.parse_as Pages.incomplete_page "<!doctype html>")
     = None) /\
  (forall e,
      fst (get_site_instance (Fixtures.parse_as Pages.incomplete_page)
             Fixtures.isro_url (Fixtures.cached Fixtures.isro_url))
      = Raise e ->
      e = AttributeError).
Proof.
  destruct (incomplete_address_block_raises
              (Fixtures.parse_as Pages.incomplete_page) Fixtures.isro_url
              (Fixtures.cached Fixtures.isro_url) "<!doctype html>"
              (add_line "Using Cache" (Fixtures.cached Fixtures.isro_url))
              eq_refl eq_refl)
    as [Hraise [Hiff Hkind]].
  split; [apply Hraise; reflexivity|]. split; [exact Hiff|exact Hkind].
Defined.

(** ** The state index: its keys, its values, its failures *)

Lemma lower_char_idempotent c :
  PyStr.lower_char (PyStr.lower_char c) = PyStr.lower_char c.
Proof.
  destruct c as [[] [] [] [] [] [] [] []]; reflexivity.
Qed.

Lemma lower_idempotent s : PyStr.lower (PyStr.lower s) = PyStr.lower s.
Proof.
  induction s as [|c s IH]; simpl; [reflexivity|].
  now rewrite lower_char_idempotent, IH.
Qed.

(** A value of the index was there before or comes from an entry. *)
Lemma fold_add_entry_origin entries index k v :
  dict_get (fold_left add_entry entries index) k = Some v ->
  dict_get index k = Some v \/
  exists state href,
    In (state, href) entries /\ k = PyStr.lower state /\ v = BASE_URL ++ href.
Proof.
  revert index. induction entries as [|[state href] rest IH]; intros index; simpl.
  - auto.
  - intros Hget. destruct (IH _ Hget) as [Hhere|[s [h [Hin [Hk Hv]]]]].
    + unfold add_entry in Hhere. simpl in Hhere.
      destruct (string_dec k (PyStr.lower state)) as [->|Hne].
      * rewrite dict_get_set_same in Hhere. injection Hhere as <-.
        right. exists state, href. auto.
      * rewrite dict_get_set_other in Hhere by exact Hne. now left.
    + right. exists s, h. auto.
Qed.

(** A key of the index stays a key, and every entry gives one. *)
Lemma fold_add_entry_domain entries index k :
  dict_get index k <> None \/
  In k (map (fun e => PyStr.lower (fst e)) entries) ->
  dict_get (fold_left add_entry entries index) k <> None.
Proof.
  revert index. induction entries as [|[state href] rest IH]; intros index; simpl.
  - intros [H|[]]. exact H.
  - intros H. apply IH.
    destruct (string_dec k (PyStr.lower state)) as [->|Hne].
    + left. unfold add_entry. simpl. rewrite dict_get_set_same. discriminate.
    + destruct H as [H|[H|H]]; [|congruence|now right].
      left. unfold add_entry. simpl. now rewrite dict_get_set_other.
Qed.

Section IndexMore.

Variable html_parser : string -> node.

Lemma build_state_url_dict_entries w markup w1 widget entries :
  make_request_with_cache "https://www.nps.gov/index.htm" w
    = (Ok (JStr markup), w1) ->
  widget_of (html_parser markup) = Some widget ->
  entries_of (Soup.find_all "li" widget) = Some entries ->
  build_state_url_dict html_parser w
  = (Ok (fold_left add_entry entries []), w1).
Proof.
  intros Hfetch Hwidget Hentries.
  unfold build_state_url_dict, bind. rewrite Hfetch.
  unfold BeautifulSoup, ret. unfold widget_of in Hwidget.
  rewrite Hwidget. unfold dot, ret.
  now apply state_loop_entries.
Qed.

(** X13. The keys of the index are the lower-cased names of the
    entries and nothing else: a key is its own lower case, it is the
    name of an entry whose href, after the base origin, is its value,
    and the lower-cased name of every entry is a key.  So a name with a
    capital letter is never found as it is. *)
Theorem index_keys_are_lowercase w markup w1 widget entries :
  make_request_with_cache "https://www.nps.gov/index.htm" w
    = (Ok (JStr markup), w1) ->
  widget_of (html_parser markup) = Some widget ->
  entries_of (Soup.find_all "li" widget) = Some entries ->
  exists index,
    build_state_url_dict html_parser w = (Ok index, w1) /\
    (forall k v,
        dict_get index k = Some v ->
        PyStr.lower k = k /\
        exists state href,
          In (state, href) entries /\ k = PyStr.lower state /\
          v = BASE_URL ++ href) /\
    (forall state href,
        In (state, href) entries ->
        dict_get index (PyStr.lower state) <> None) /\
    (forall k, PyStr.lower k <> k -> dict_get index k = None).
Proof.
  intros Hfetch Hwidget Hentries.
  exists (fold_left add_entry entries []).
  split; [exact (build_state_url_dict_entries _ _ _ _ _ Hfetch Hwidget Hentries)|].
  assert (Horigin : forall k v,
             dict_get (fold_left add_entry entries []) k = Some v ->
             PyStr.lower k = k /\
             exists state href,
               In (state, href) entries /\ k = PyStr.lower state /\
               v = BASE_URL ++ href).
  { intros k v Hget.
    destruct (fold_add_entry_origin _ _ _ _ Hget) as [H|[s [h [Hin [-> ->]]]]].
    - discriminate H.
    - split; [apply lower_idempotent|]. exists s, h. auto. }
  split; [exact Horigin|]. split.
  - intros state href Hin. apply fold_add_entry_domain. right.
    apply in_map_iff. exists (state, href). auto.
  - intros k Hk.
    destruct (dict_get (fold_left add_entry entries []) k) as [v|] eqn:Hget;
      [|reflexivity].
    destruct (Horigin k v Hget) as [Hlow _]. contradiction.
Qed.

(** A list item that is no entry makes the loop body raise. *)
Lemma state_entry_malformed state_info index w :
  entry_of state_info = None ->
  exists e,
    state_entry index state_info w = (Raise e, w) /\
    (e = TypeError \/ e = KeyError \/ e = AttributeError).
Proof.
  unfold entry_of, state_entry, subscript_tag, bind, dot, ret, raise.
  destruct (Soup.find "a" [] state_info) as [state_tag|]; [|eauto].
  destruct (Soup.attr_value state_tag "href") as [href|]; [|eauto].
  destruct (Soup.node_string state_tag) as [state|]; [discriminate|eauto].
Qed.

Lemma state_loop_malformed state_list index w :
  entries_of state_list = None ->
  exists e,
    state_loop state_list index w = (Raise e, w) /\
    (e = TypeError \/ e = KeyError \/ e = AttributeError).
Proof.
  revert index. induction state_list as [|state_info rest IH]; intros index; simpl.
  - discriminate.
  - destruct (entry_of state_info) as [entry|] eqn:He.
    + destruct (entries_of rest) as [es|]; [discriminate|].
      intros _. unfold bind. erewrite state_entry_of by exact He.
      now apply IH.
    + intros _. unfold bind.
      destruct (state_entry_malformed state_info index w He) as [e [-> Hkind]].
      eauto.
Qed.

(** X14. One list item of the widget that is no entry (it has no link,
    or its link has no href, or the link holds more than a text) makes
    the whole index fail: [build_state_url_dict] raises [TypeError],
    [KeyError] or [AttributeError] and returns no index of the other
    entries; the homepage stays cached. *)
Theorem malformed_item_fails_index w markup w1 widget :
  make_request_with_cache "https://www.nps.gov/index.htm" w
    = (Ok (JStr markup), w1) ->
  widget_of (html_parser markup) = Some widget ->
  entries_of (Soup.find_all "li" widget) = None ->
  exists e,
    build_state_url_dict html_parser w = (Raise e, w1) /\
    (e = TypeError \/ e = KeyError \/ e = AttributeError) /\
    stored w1 "https://www.nps.gov/index.htm" = Some (JStr markup).
Proof.
  intros Hfetch Hwidget Hentries.
  destruct (state_loop_malformed (Soup.find_all "li" widget) [] w1 Hentries)
    as [e [Hloop Hkind]].
  exists e. split; [|split; [exact Hkind|]].
  - unfold build_state_url_dict, bind. rewrite Hfetch.
    unfold BeautifulSoup, ret. unfold widget_of in Hwidget.
    rewrite Hwidget. unfold dot, ret. exact Hloop.
  - apply (returned_value_is_stored Text _ _ _ _ Hfetch).
Qed.

End IndexMore.

Lemma index_keys_are_lowercase_witness :
  exists index,
    build_state_url_dict
      (Fixtures.parse_as
         (Fixtures.homepage
            [("Michigan", "/state/mi/index.htm"); ("New York", "/state/ny/index.htm")]))
      (Fixtures.cached Fixtures.home_url)
    = (Ok index, add_line "Using Cache" (Fixtures.cached Fixtures.home_url)) /\
    dict_get index "Michigan" = None /\
    dict_get index "new york" <> None.
Proof.
  destruct (index_keys_are_lowercase
              (Fixtures.parse_as
                 (Fixtures.homepage
                    [("Michigan", "/state/mi/index.htm");
                     ("New York", "/state/ny/index.htm")]))
              (Fixtures.cached Fixtures.home_url) "<!doctype html>"
              (add_line "Using Cache" (Fixtures.cached Fixtures.home_url))
              (NTag "div"
                 [("class", "SearchBar-keywordSearch input-group input-group-lg")]
                 [NTag "ul" [("class", "dropdown-menu")]
                    (map Fixtures.state_item
                       [("Michigan", "/state/mi/index.htm");
                        ("New York", "/state/ny/index.htm")])])
              [("Michigan", "/state/mi/index.htm");
               ("New York", "/state/ny/index.htm")]
              eq_refl eq_refl eq_refl)
    as [index [Hrun [_ [Hdom Hcase]]]].
  exists index. split; [exact Hrun|]. split.
  - apply Hcase. discriminate.
  - apply (Hdom "New York" "/state/ny/index.htm"). simpl. auto.
Defined.

Lemma malformed_item_fails_index_witness :
  exists e,
    build_state_url_dict (Fixtures.parse_as Pages.broken_homepage)
      (Fixtures.cached Fixtures.home_url)
    = (Raise e, add_line "Using Cache" (Fixtures.cached Fixtures.home_url)) /\
    (e = TypeError \/ e = KeyError \/ e = AttributeError) /\
    stored (add_line "Using Cache" (Fixtures.cached Fixtures.home_url))
      "https://www.nps.gov/index.htm" = Some (JStr "<!doctype html>").
Proof.
  apply (malformed_item_fails_index
           (Fixtures.parse_as Pages.broken_homepage)
           (Fixtures.cached Fixtures.home_url) "<!doctype html>"
           (add_line "Using Cache" (Fixtures.cached Fixtures.home_url))
           (NTag "div"
              [("class", "SearchBar-keywordSearch input-group input-group-lg")]
              [NTag "ul" []
                 [Fixtures.state_item ("Alabama", "/state/al/index.htm");
                  NTag "li" [] [NText "Alaska"]]]));
    reflexivity.
Defined.

(** ** The sites of a state *)

(** The store a world holds is a matter of its cache file alone. *)
Lemma stored_cache_file w w' k :
  cache_file w' = cache_file w -> stored w' k = stored w k.
Proof.
  unfold stored, loaded_store, open_cache. intros ->.
  now destruct (cache_file w).
Qed.

(** A call for a stored key changes the world by one printed line. *)
Lemma hit_world kind key w v :
  stored w key = Some v ->
  fetch_or_get kind key w = (Ok v, add_line "Using Cache" w).
Proof.
  unfold stored. destruct (loaded_store w) as [d|] eqn:Hd; [|discriminate].
  intros Hv. now apply fetch_or_get_hit with d.
Qed.

Section ListingFacts.

Variable html_parser : string -> node.

(** What one round of the loop does to the world. *)
Lemma site_call_effects site_url w :
  let w' := snd (get_site_instance html_parser site_url w) in
  (List.length (requested w') <= List.length (requested w) + 1)%nat /\
  (forall k v, stored w k = Some v -> stored w' k = Some v).
Proof.
  simpl. rewrite get_site_instance_world. split.
  - destruct (fetch_or_get_effects Text site_url w)
      as [_ [[Hr _]|[[Hr _]|[Hr _]]]]; simpl in Hr; rewrite Hr;
      rewrite ?length_app; simpl; lia.
  - intros k v. apply (fetch_or_get_preserves Text).
Qed.

Lemma parks_loop_returns park_info acc w sites w' :
  parks_loop html_parser park_info acc w = (Ok sites, w') ->
  List.length sites = (List.length acc + List.length park_info)%nat /\
  (List.length (requested w')
   <= List.length (requested w) + List.length park_info)%nat /\
  (forall k v, stored w k = Some v -> stored w' k = Some v).
Proof.
  revert acc w. induction park_info as [|park rest IH]; intros acc w;
    cbn [parks_loop List.length].
  - unfold ret. intros [= <- <-]. repeat split; auto; lia.
  - unfold bind, subscript_tag, ret, raise.
    destruct (Soup.find "a" [] park) as [link|]; [|discriminate].
    destruct (Soup.attr_value link "href") as [park_ref|]; [|discriminate].
    pose proof (site_call_effects (BASE_URL ++ park_ref ++ "index.htm") w)
      as [Hreq Hst].
    destruct (get_site_instance html_parser (BASE_URL ++ park_ref ++ "index.htm") w)
      as [[site|e] w2]; cbv beta iota; [|discriminate].
    simpl in Hreq, Hst. intros Hloop.
    destruct (IH _ _ Hloop) as [Hlen [Hreq' Hst']].
    rewrite length_app in Hlen. simpl in Hlen.
    repeat split; [lia|lia|]. intros k v Hk. apply Hst'. now apply Hst.
Qed.

(** X15. When [get_sites_for_state] returns, it returns one record per
    heading of the list of sites; it has made at most one request for
    the listing page and one per site; and the listing page is in the
    cache. *)
Theorem one_site_per_heading state_url w sites w' :
  get_sites_for_state html_parser state_url w = (Ok sites, w') ->
  exists markup park_info_parent,
    stored w' state_url = Some (JStr markup) /\
    find_any [("id", "list_parks")] (html_parser markup) = Some park_info_parent /\
    List.length sites = List.length (Soup.find_all "h3" park_info_parent) /\
    (List.length (requested w')
     <= List.length (requested w) + 1 + List.length sites)%nat.
Proof.
  unfold get_sites_for_state, bind.
  destruct (make_request_with_cache state_url w) as [[url_text|e] w1] eqn:Hfetch;
    [|discriminate].
  unfold BeautifulSoup, ret, raise, dot.
  destruct url_text as [ | | | |markup| | ]; try discriminate.
  destruct (find_any [("id", "list_parks")] (html_parser markup))
    as [park_info_parent|] eqn:Hparent; [|discriminate].
  intros Hloop.
  destruct (parks_loop_returns _ _ _ _ _ Hloop) as [Hlen [Hreq Hst]].
  exists markup, park_info_parent. simpl in Hlen.
  split; [|split; [exact Hparent|split; [exact Hlen|]]].
  - apply Hst. apply (returned_value_is_stored Text _ _ _ _ Hfetch).
  - destruct (fetch_or_get_effects Text state_url w)
      as [_ [[Hr _]|[[Hr _]|[Hr _]]]]; simpl in Hr; rewrite Hfetch in Hr;
      simpl in Hr; rewrite Hr in Hreq; rewrite ?length_app in Hreq;
      simpl in Hreq; lia.
Qed.

Lemma parks_loop_offline park_info acc w :
  (forall park url,
      In park park_info -> park_url_of park = Some url -> stored w url <> None) ->
  requested (snd (parks_loop html_parser park_info acc w)) = requested w /\
  written (snd (parks_loop html_parser park_info acc w)) = written w /\
  cache_file (snd (parks_loop html_parser park_info acc w)) = cache_file w.
Proof.
  revert acc w. induction park_info as [|park rest IH]; intros acc w Hall;
    cbn [parks_loop].
  - auto.
  - pose proof (Hall park) as Hpark. unfold park_url_of in Hpark.
    unfold bind, subscript_tag, ret, raise.
    destruct (Soup.find "a" [] park) as [link|]; [|auto].
    destruct (Soup.attr_value link "href") as [park_ref|]; [|auto].
    specialize (Hpark _ (or_introl eq_refl) eq_refl).
    destruct (stored w (BASE_URL ++ park_ref ++ "index.htm")) as [v|] eqn:Hv;
      [|contradiction].
    pose proof (get_site_instance_world html_parser
                  (BASE_URL ++ park_ref ++ "index.htm") w) as Hworld.
    pose proof (hit_world Text _ _ _ Hv) as Hhit. cbn [fetch_or_get] in Hhit.
    rewrite Hhit in Hworld. cbn [snd] in Hworld.
    destruct (get_site_instance html_parser (BASE_URL ++ park_ref ++ "index.htm") w)
      as [[site|e] w2]; cbn [snd] in Hworld; subst w2; cbv beta iota; [|auto].
    apply (IH (acc ++ [site])%list (add_line "Using Cache" w)).
    intros p url Hin Hurl.
    rewrite (stored_cache_file w (add_line "Using Cache" w)) by reflexivity.
    apply (Hall p url); [now right|exact Hurl].
Qed.

(** X16. A state whose pages are in the cache is listed without the
    network: when the cache holds the listing page and the page of
    every site whose heading links to one, [get_sites_for_state]
    requests nothing and leaves the cache file as it is, whatever it
    returns. *)
Theorem cached_state_needs_no_network state_url w markup park_info_parent :
  stored w state_url = Some (JStr markup) ->
  find_any [("id", "list_parks")] (html_parser markup) = Some park_info_parent ->
  (forall park url,
      In park (Soup.find_all "h3" park_info_parent) ->
      park_url_of park = Some url -> stored w url <> None) ->
  requested (snd (get_sites_for_state html_parser state_url w)) = requested w /\
  written (snd (get_sites_for_state html_parser state_url w)) = written w /\
  cache_file (snd (get_sites_for_state html_parser state_url w)) = cache_file w.
Proof.
  intros Hpage Hparent Hall.
  unfold get_sites_for_state, bind.
  pose proof (hit_world Text _ _ _ Hpage) as Hhit. cbn [fetch_or_get] in Hhit.
  rewrite Hhit. unfold BeautifulSoup, ret, dot. rewrite Hparent.
  apply (parks_loop_offline (Soup.find_all "h3" park_info_parent) []
           (add_line "Using Cache" w)).
  intros p url Hin Hurl.
  rewrite (stored_cache_file w (add_line "Using Cache" w)) by reflexivity.
  now apply (Hall p url).
Qed.

End ListingFacts.

Lemma one_site_per_heading_witness :
  exists markup park_info_parent,
    stored (snd (get_sites_for_state Site.parser Site.mi_url Site.offline))
      Site.mi_url = Some (JStr markup) /\
    find_any [("id", "list_parks")] (Site.parser markup) = Some park_info_parent /\
    List.length
      [{| category := "National Park"; name := "Isle Royale";
          address := "Houghton, MI"; zipcode := "49931";
          phone := "(906) 482-0984" |}]
    = List.length (Soup.find_all "h3" park_info_parent) /\
    (List.length
       (requested (snd (get_sites_for_state Site.parser Site.mi_url Site.offline)))
     <= List.length (requested Site.offline) + 1
        + List.length
            [{| category := "National Park"; name := "Isle Royale";
                address := "Houghton, MI"; zipcode := "49931";
                phone := "(906) 482-0984" |}])%nat.
Proof.
  apply (one_site_per_heading Site.parser Site.mi_url Site.offline).
  reflexivity.
Defined.

Lemma cached_state_needs_no_network_witness :
  requested (snd (get_sites_for_state Site.parser Site.mi_url Site.offline))
    = requested Site.offline /\
  written (snd (get_sites_for_state Site.parser Site.mi_url Site.offline))
    = written Site.offline /\
  cache_file (snd (get_sites_for_state Site.parser Site.mi_url Site.offline))
    = cache_file Site.offline.
Proof.
  apply (cached_state_needs_no_network Site.parser Site.mi_url Site.offline
           "state" (NTag "ul" [("id", "list_parks")]
                      (map Site.park_heading ["/isro/"])));
    try reflexivity.
  intros park url [<-|[]]. intros [= <-]. discriminate.
Defined.

(** ** The interactive session *)

(** *** Numbers as they are printed and as they are read *)

Ltac digit_step IH :=
  match goal with
  | |- (if ?b then _ else _) = _ => change b with true; cbv iota
  end;
  match goal with
  | |- context [Z.of_nat ?n] =>
      let v := eval vm_compute in (Z.of_nat n) in change (Z.of_nat n) with v
  end;
  rewrite <- IH; f_equal; cbn [Pos.of_uint_acc]; lia.

Lemma digits_of_uint_acc d acc :
  Main.digits_value (NilEmpty.string_of_uint d) (Z.pos acc)
  = Some (Z.pos (Pos.of_uint_acc d acc)).
Proof.
  revert acc. induction d; intros acc;
    cbn [NilEmpty.string_of_uint Main.digits_value Pos.of_uint_acc];
    [reflexivity | digit_step IHd ..].
Qed.

Lemma digits_of_uint d :
  Main.digits_value (NilEmpty.string_of_uint d) 0%Z
  = Some (Z.of_N (Pos.of_uint d)).
Proof.
  induction d;
    cbn [NilEmpty.string_of_uint Main.digits_value Pos.of_uint];
    [reflexivity | exact IHd | ..];
    match goal with
    | |- (if ?b then _ else _) = _ => change b with true; cbv iota
    end;
    cbn [Z.of_N]; rewrite <- digits_of_uint_acc; reflexivity.
Qed.

Lemma uint_digits_numeric d :
  forallb Main.isnumeric_char
    (list_ascii_of_string (NilEmpty.string_of_uint d)) = true.
Proof.
  induction d; cbn [NilEmpty.string_of_uint list_ascii_of_string forallb];
    [reflexivity | ..]; rewrite IHd; reflexivity.
Qed.

(** A positive number, printed and read back, is the number. *)
Lemma printed_number_is_read p :
  Main.isnumeric (PyStr.of_int (Z.pos p)) = true /\
  Main.py_int (PyStr.of_int (Z.pos p)) = Some (Z.pos p).
Proof.
  unfold PyStr.of_int, Main.py_int.
  cbn [Z.to_int NilZero.string_of_int].
  pose proof (DecimalPos.Unsigned.to_uint_nonnil p) as Hnonnil.
  pose proof (DecimalPos.Unsigned.of_to p) as Hof_to.
  pose proof (digits_of_uint (Pos.to_uint p)) as Hvalue.
  pose proof (uint_digits_numeric (Pos.to_uint p)) as Hnumeric.
  rewrite Hof_to in Hvalue. cbn [Z.of_N] in Hvalue.
  unfold NilZero.string_of_uint.
  destruct (Pos.to_uint p) eqn:Hd; try contradiction;
    (split; [|exact Hvalue]);
    unfold Main.isnumeric; exact Hnumeric.
Qed.

(** *** The listing and the choice of a site *)

Lemma print_listing_stdout state_nps_list num w :
  stdout (Main.print_listing state_nps_list num w)
  = (stdout w ++ Main.listing_lines state_nps_list num)%list.
Proof.
  revert num w. induction state_nps_list as [|park rest IH]; intros num w;
    cbn [Main.print_listing Main.listing_lines].
  - now rewrite app_nil_r.
  - rewrite IH. simpl. now rewrite <- app_assoc.
Qed.

Lemma listing_lines_nth state_nps_list num i park :
  nth_error state_nps_list i = Some park ->
  nth_error (Main.listing_lines state_nps_list num) i
  = Some ("[" ++ PyStr.of_int (num + Z.of_nat i) ++ "] " ++ info park).
Proof.
  revert num i. induction state_nps_list as [|p rest IH]; intros num i.
  - destruct i; discriminate.
  - destruct i as [|i]; cbn [nth_error Main.listing_lines].
    + intros [= ->]. now rewrite Z.add_0_r.
    + intros Hnth. rewrite (IH _ _ Hnth). do 4 f_equal. lia.
Qed.

Section SessionFacts.

Variable html_parser : string -> node.
Variable consumer_key : string.
Variable py_repr : json -> string.
Variable py_title : string -> string.

Local Abbreviation choose_number := (Main.choose_number consumer_key py_repr).
Local Abbreviation session :=
  (Main.session html_parser consumer_key py_repr py_title).

(** X17. The number shown before a site in the listing is the input
    that selects this site: the line for the site at position [i] of the
    list reads [[i+1]] and the site's [info], and the input [i+1], as it
    is printed, makes the session look up and print the places of that
    very site. *)
Theorem listed_number_selects_site state_nps_list i site w0 w :
  nth_error state_nps_list i = Some site ->
  nth_error (stdout (Main.print_listing state_nps_list 1%Z w0))
    (List.length (stdout w0) + i)
  = Some (Main.listing_line i site) /\
  choose_number state_nps_list (PyStr.of_int (Z.of_nat (S i))) w
  = Main.show_places consumer_key py_repr site w.
Proof.
  intros Hnth. split.
  - rewrite print_listing_stdout, nth_error_app2 by lia.
    replace (List.length (stdout w0) + i - List.length (stdout w0))%nat
      with i by lia.
    rewrite (listing_lines_nth _ 1%Z _ _ Hnth). unfold Main.listing_line.
    do 4 f_equal. lia.
  - assert (Hlt : (i < List.length state_nps_list)%nat)
      by (apply nth_error_Some; congruence).
    assert (Hpos : Z.of_nat (S i) = Z.pos (Pos.of_succ_nat i)) by lia.
    unfold Main.choose_number. rewrite Hpos.
    destruct (printed_number_is_read (Pos.of_succ_nat i)) as [-> ->].
    rewrite <- Hpos.
    replace ((1 <=? Z.of_nat (S i)) && (Z.of_nat (S i)
             <=? Z.of_nat (List.length state_nps_list)))%Z with true
      by (symmetry; apply andb_true_intro; split; apply Z.leb_le; lia).
    unfold Main.list_index.
    replace (0 <=? Z.of_nat (S i) - 1)%Z with true
      by (symmetry; apply Z.leb_le; lia).
    replace (Z.to_nat (Z.of_nat (S i) - 1)) with i by lia.
    now rewrite Hnth.
Qed.

(** The guard on the number keeps the index inside the list. *)
Lemma choose_number_in_bounds state_nps_list num w :
  fst (choose_number state_nps_list num w) <> Some Main.IndexError.
Proof.
  unfold Main.choose_number, Main.show_places.
  destruct (Main.isnumeric num); [|simpl; discriminate].
  destruct (Main.py_int num) as [n|]; [|simpl; discriminate].
  destruct ((1 <=? n) && (n <=? Z.of_nat (List.length state_nps_list)))%Z
    eqn:Hguard; [|simpl; discriminate].
  apply andb_prop in Hguard. destruct Hguard as [H1 H2].
  apply Z.leb_le in H1, H2.
  unfold Main.list_index.
  replace (0 <=? n - 1)%Z with true by (symmetry; apply Z.leb_le; lia).
  destruct (nth_error state_nps_list (Z.to_nat (n - 1))) as [site|] eqn:Hnth.
  - destruct (get_nearby_places consumer_key site w) as [[places|e] w1];
      [|simpl; discriminate].
    destruct (print_nearby_places py_repr places w1) as [[[]|e] w2];
      simpl; discriminate.
  - apply nth_error_None in Hnth. lia.
Qed.

Lemma session_in_bounds np_url_dict lines p w :
  fst (session np_url_dict lines p w) <> Main.IndexError.
Proof.
  revert p w. induction lines as [|line rest IH]; intros p w; destruct p;
    cbn [Main.session]; try (simpl; discriminate).
  - destruct (String.eqb (PyStr.lower line) "exit"); [simpl; discriminate|].
    destruct (negb (dict_mem np_url_dict (PyStr.lower line))); [apply IH|].
    match goal with
    | |- context [getitem ?d ?k ?w0] =>
        destruct (getitem d k w0) as [[state_url|e] w1]
    end; [|simpl; discriminate].
    destruct (get_sites_for_state html_parser state_url w1)
      as [[sites|e] w2]; [apply IH|simpl; discriminate].
  - destruct (String.eqb line "exit"); [simpl; discriminate|].
    destruct (String.eqb line "back"); [apply IH|].
    pose proof (choose_number_in_bounds state_nps_list line
                  (add_line Main.number_question w)) as Hbounds.
    destruct (choose_number state_nps_list line
                (add_line Main.number_question w)) as [[s|] w1];
      [|apply IH].
    simpl in *. congruence.
Qed.

(** X18. No input makes the main block index the list of sites out of
    its bounds: whatever the lines typed, the pages and the cache, the
    program does not stop with [IndexError], and neither does a session
    started at either prompt with any index and list. *)
Theorem session_never_index_error lines w :
  fst (Main.main html_parser consumer_key py_repr py_title lines w)
    <> Main.IndexError /\
  forall np_url_dict p,
    fst (session np_url_dict lines p w) <> Main.IndexError.
Proof.
  split.
  - unfold Main.main.
    destruct (build_state_url_dict html_parser w) as [[np_url_dict|e] w1];
      [apply session_in_bounds|simpl; discriminate].
  - intros np_url_dict p. apply session_in_bounds.
Qed.

(** X19. The check of the number lets more through than [int] can
    read: a line of numeric characters that are not all decimal digits,
    such as a superscript two, stops the session with [ValueError]. *)
Theorem numeric_line_stops_session np_url_dict num rest state_nps_list w :
  Main.isnumeric num = true -> Main.py_int num = None ->
  session np_url_dict (num :: rest) (Main.AskNumber state_nps_list) w
  = (Main.ValueError, add_line Main.number_question w).
Proof.
  intros Hnumeric Hint. cbn [Main.session].
  destruct (String.eqb num "exit") eqn:Eexit.
  { apply String.eqb_eq in Eexit. subst num. discriminate Hnumeric. }
  destruct (String.eqb num "back") eqn:Eback.
  { apply String.eqb_eq in Eback. subst num. discriminate Hnumeric. }
  unfold Main.choose_number. now rewrite Hnumeric, Hint.
Qed.

(** X20. A line [exit] ends the session wherever it is read: the
    session with such a line among its input does not run out of input,
    and the lines after it are never read. *)
Theorem exit_line_ends_session np_url_dict before after p w :
  fst (session np_url_dict (before ++ "exit" :: after)%list p w)
    <> Main.EOFError /\
  session np_url_dict (before ++ "exit" :: after)%list p w
  = session np_url_dict (before ++ ["exit"])%list p w.
Proof.
  revert p w. induction before as [|line rest IH]; intros p w; destruct p;
    cbn [app Main.session].
  - simpl. split; [discriminate|reflexivity].
  - simpl. split; [discriminate|reflexivity].
  - destruct (String.eqb (PyStr.lower line) "exit");
      [simpl; split; [discriminate|reflexivity]|].
    destruct (negb (dict_mem np_url_dict (PyStr.lower line))); [apply IH|].
    match goal with
    | |- context [getitem ?d ?k ?w0] =>
        destruct (getitem d k w0) as [[state_url|e] w1]
    end; [|simpl; split; [discriminate|reflexivity]].
    destruct (get_sites_for_state html_parser state_url w1)
      as [[sites|e] w2]; [apply IH|simpl; split; [discriminate|reflexivity]].
  - destruct (String.eqb line "exit");
      [simpl; split; [discriminate|reflexivity]|].
    destruct (String.eqb line "back"); [apply IH|].
    pose proof (choose_number_in_bounds state_nps_list line
                  (add_line Main.number_question w)) as Hbounds.
    destruct (choose_number state_nps_list line
                (add_line Main.number_question w)) as [[s|] w1] eqn:Hchoice;
      [|apply IH].
    split; [|reflexivity]. simpl.
    unfold Main.choose_number, Main.show_places in Hchoice.
    destruct (Main.isnumeric line); [|discriminate].
    destruct (Main.py_int line) as [n|]; [|injection Hchoice as <- _; discriminate].
    destruct ((1 <=? n) && (n <=? Z.of_nat (List.length state_nps_list)))%Z;
      [|discriminate].
    destruct (Main.list_index state_nps_list (n - 1));
      [|injection Hchoice as <- _; discriminate].
    destruct (get_nearby_places consumer_key n0 (add_line Main.number_question w))
      as [[places|e] w2]; [|injection Hchoice as <- _; discriminate].
    destruct (print_nearby_places py_repr places w2) as [[[]|e] w3];
      [discriminate|injection Hchoice as <- _; discriminate].
Qed.

End SessionFacts.

Lemma listed_number_selects_site_witness :
  nth_error
    (stdout (Main.print_listing [Pages.isle_royale; Pages.keweenaw] 1%Z
               Site.offline))
    (List.length (stdout Site.offline) + 1)
  = Some (Main.listing_line 1 Pages.keweenaw) /\
  Main.choose_number "KEY" Fixtures.no_repr
    [Pages.isle_royale; Pages.keweenaw] (PyStr.of_int (Z.of_nat 2)) Site.online
  = Main.show_places "KEY" Fixtures.no_repr Pages.keweenaw Site.online.
Proof.
  apply (listed_number_selects_site "KEY" Fixtures.no_repr
           [Pages.isle_royale; Pages.keweenaw] 1 Pages.keweenaw).
  reflexivity.
Defined.

Lemma numeric_line_stops_session_witness :
  Main.session Site.parser "KEY" Fixtures.no_repr Site.title
    [("michigan", Site.mi_url)] [Main.superscript_two; "exit"]
    (Main.AskNumber [Pages.isle_royale]) Site.offline
  = (Main.ValueError, add_line Main.number_question Site.offline).
Proof.
  apply (numeric_line_stops_session Site.parser "KEY" Fixtures.no_repr
           Site.title [("michigan", Site.mi_url)] Main.superscript_two
           ["exit"] [Pages.isle_royale] Site.offline);
    reflexivity.
Defined.

(** ** The cache: what is not remembered, what is not repaired *)

(** A call that finds the store and not the key asks the network. *)
Lemma miss_requests kind key w d :
  loaded_store w = Some d -> dict_get d key = None ->
  requested (snd (fetch_or_get kind key w)) = (requested w ++ [key])%list.
Proof.
  intros Hd Hv.
  pose proof (fetch_or_get_cases kind key w) as Hcase.
  inversion Hcase as [ Hd' HH | d' v0 Hd' Hv' HH | d' Hd' Hv' Hr HH
                     | d' r Hd' Hv' Hr Hkind Hj HH
                     | d' r value Hd' Hv' Hr Hvalue HH ];
    try reflexivity; congruence.
Qed.

(** X21. A failure is not remembered: when a call raised after it
    found a dictionary in the cache file (the request failed, or the
    body was no JSON), the same call made again sends the request
    again. *)
Theorem failed_call_requests_again kind key w e :
  fst (fetch_or_get kind key w) = Raise e -> e <> AttributeError ->
  requested (snd (fetch_or_get kind key (snd (fetch_or_get kind key w))))
  = (requested w ++ [key; key])%list.
Proof.
  intros Hraise Hne.
  pose proof (fetch_or_get_cases kind key w) as Hcase.
  inversion Hcase as [ Hd HH | d v0 Hd Hv HH | d Hd Hv Hr HH
                     | d r Hd Hv Hr Hkind Hj HH
                     | d r value Hd Hv Hr Hvalue HH ];
    rewrite <- HH in Hraise; simpl in Hraise; try discriminate;
    try congruence; simpl;
    rewrite (miss_requests kind key _ d)
      by (rewrite ?loaded_store_add_request, ?loaded_store_add_line; assumption);
    simpl; now rewrite <- app_assoc.
Qed.

Lemma failed_call_requests_again_witness :
  requested
    (snd (fetch_or_get Text Fixtures.home_url
            (snd (fetch_or_get Text Fixtures.home_url
                    (Fixtures.fresh Fixtures.dead_net)))))
  = [Fixtures.home_url; Fixtures.home_url].
Proof.
  apply (failed_call_requests_again Text Fixtures.home_url
           (Fixtures.fresh Fixtures.dead_net) RequestException).
  - reflexivity.
  - discriminate.
Defined.

(** X22. A cache file whose document is no dictionary is never
    repaired: every call raises [AttributeError] and changes nothing,
    so after any sequence of calls the world is as it was and the next
    call raises again. *)
Theorem non_dict_document_stays calls w :
  loaded_store w = None ->
  run_calls calls w = w /\
  forall kind key,
    fetch_or_get kind key (run_calls calls w) = (Raise AttributeError, w).
Proof.
  intros Hnone.
  assert (Hcall : forall kind key,
             fetch_or_get kind key w = (Raise AttributeError, w)).
  { intros kind key.
    pose proof (fetch_or_get_cases kind key w) as Hcase.
    inversion Hcase as [ Hd HH | d v0 Hd Hv HH | d Hd Hv Hr HH
                       | d r Hd Hv Hr Hkind Hj HH
                       | d r value Hd Hv Hr Hvalue HH ];
      try reflexivity; congruence. }
  assert (Hrun : run_calls calls w = w).
  { induction calls as [|[kind key] rest IH]; simpl; [reflexivity|].
    now rewrite Hcall. }
  split; [exact Hrun|]. intros kind key. rewrite Hrun. apply Hcall.
Qed.

Lemma non_dict_document_stays_witness :
  run_calls [(Text, Fixtures.home_url); (Json, MAP_URL)]
    (Fixtures.with_file (Document (JArr [])) Fixtures.echo_net)
  = Fixtures.with_file (Document (JArr [])) Fixtures.echo_net /\
  forall kind key,
    fetch_or_get kind key
      (run_calls [(Text, Fixtures.home_url); (Json, MAP_URL)]
         (Fixtures.with_file (Document (JArr [])) Fixtures.echo_net))
    = (Raise AttributeError,
       Fixtures.with_file (Document (JArr [])) Fixtures.echo_net).
Proof.
  apply non_dict_document_stays. reflexivity.
Defined.
